(** * Agent Execution Controller: a shallow embedding in Rocq

    The TypeScript sources modelled here are
    - [src/core/state.ts]            (the lifecycle types, [validTransitions],
                                      [transitionState], [createExecutionRun]),
    - [src/core/killSwitch.ts]       (the global kill switch, second version),
    - [src/core/errors.ts]           (the structured errors),
    - [src/core/cost.ts]             ([addCost]),
    - [src/log/eventStore.ts]        (the global append-only event log),
    - [src/unnamed/part_005]         ([enforceLimits], throwing [BudgetExceededError]),
    - [src/unnamed/part_003]         ([executeStep], [runExecution],
                                      [generateSummary], [handleExecutionError]).

    Modelling choices.
    - A JS [number] holding a token count, a step number or a timestamp is a [Z];
      a JS [number] holding an amount of dollars is a rational [Q].  The
      comparisons [>] of [enforceLimits] become [Z.lt] and [Qlt]; the IEEE
      rounding of repeated [+ 0.1] is not modelled (no comparison in this
      file is close enough to a limit for it to matter).
    - The module-level [let]/[const] variables of the kill switch and of the
      event store live in a record [Globals]; the run, an object mutated in
      place, is the second half of the machine state [St].
    - [Date.now()] and [crypto.randomUUID()] are oracles: the world carries a
      clock and a uuid source indexed by how many times each has been read.
    - A thrown exception does not roll back the mutations done before the
      [throw]: the exception monad [M] returns the state in both outcomes. *)

From Stdlib Require Import ZArith QArith String Ascii List Bool Lia.
Import ListNotations.
Open Scope string_scope.

(** ** Data model ([src/core/state.ts], type part) *)

Inductive ExecutionState : Type :=
| CREATED | RUNNING | PAUSED | KILLED | COMPLETED | FAILED.

Definition ExecutionState_eqb (a b : ExecutionState) : bool :=
  match a, b with
  | CREATED, CREATED | RUNNING, RUNNING | PAUSED, PAUSED
  | KILLED, KILLED | COMPLETED, COMPLETED | FAILED, FAILED => true
  | _, _ => false
  end.

Lemma ExecutionState_eqb_spec (a b : ExecutionState) :
  ExecutionState_eqb a b = true <-> a = b.
Proof. destruct a, b; simpl; split; congruence. Qed.

(** The string literal of each state, as the TypeScript union has it. *)
Definition ExecutionState_name (s : ExecutionState) : string :=
  match s with
  | CREATED => "CREATED" | RUNNING => "RUNNING" | PAUSED => "PAUSED"
  | KILLED => "KILLED" | COMPLETED => "COMPLETED" | FAILED => "FAILED"
  end.

Inductive StepEventType : Type := LLM_CALL | TOOL_CALL | DECISION | ERROR.

Record Budget : Type := mkBudget { maxTokens : Z; maxUsd : Q }.

Record Spent : Type := mkSpent { tokens : Z; usd : Q }.

Record StepEvent : Type := mkStepEvent {
  ev_id : string;
  stepNumber : Z;
  ev_type : StepEventType;
  description : string;
  cost : Q;
  ev_tokens : Z;
  timestamp : Z
}.

Record ExecutionRun : Type := mkExecutionRun {
  id : string;
  state : ExecutionState;
  budget : Budget;
  spent : Spent;
  steps : list StepEvent;
  startedAt : option Z;
  endedAt : option Z;
  terminationReason : option string
}.

Record ExecutionSummary : Type := mkExecutionSummary {
  runId : string;
  finalState : ExecutionState;
  stepsExecuted : nat;
  totalCost : Q;
  totalTokens : Z;
  sum_terminationReason : option string;
  durationMs : Z;
  sum_startedAt : Z;
  sum_endedAt : Z
}.

(** In-place assignments [run.f = v]. *)
Definition set_state (v : ExecutionState) (r : ExecutionRun) : ExecutionRun :=
  mkExecutionRun (id r) v (budget r) (spent r) (steps r)
    (startedAt r) (endedAt r) (terminationReason r).
Definition set_spent (v : Spent) (r : ExecutionRun) : ExecutionRun :=
  mkExecutionRun (id r) (state r) (budget r) v (steps r)
    (startedAt r) (endedAt r) (terminationReason r).
Definition set_steps (v : list StepEvent) (r : ExecutionRun) : ExecutionRun :=
  mkExecutionRun (id r) (state r) (budget r) (spent r) v
    (startedAt r) (endedAt r) (terminationReason r).
Definition set_startedAt (v : option Z) (r : ExecutionRun) : ExecutionRun :=
  mkExecutionRun (id r) (state r) (budget r) (spent r) (steps r)
    v (endedAt r) (terminationReason r).
Definition set_endedAt (v : option Z) (r : ExecutionRun) : ExecutionRun :=
  mkExecutionRun (id r) (state r) (budget r) (spent r) (steps r)
    (startedAt r) v (terminationReason r).
Definition set_terminationReason (v : option string) (r : ExecutionRun)
  : ExecutionRun :=
  mkExecutionRun (id r) (state r) (budget r) (spent r) (steps r)
    (startedAt r) (endedAt r) v.

(** [createExecutionRun(id, budget)] *)
Definition createExecutionRun (rid : string) (b : Budget) : ExecutionRun :=
  mkExecutionRun rid CREATED b (mkSpent 0 0) [] None None None.

(** ** Errors ([src/core/errors.ts]) *)

Inductive LimitType : Type := LimitTokens | LimitUsd.

(** The subclasses of the abstract [ExecutionError].  The constructor's
    [timestamp = Date.now()] is not kept: no error's timestamp is read by
    the code modelled here, and the clock position it would consume is not
    counted. *)
Inductive ExecutionError : Type :=
| BudgetExceededError (limitType : LimitType) (e_spent e_limit : Q)
| KillSwitchTriggeredError (reason : string)
| InvalidStateTransitionError (fromState toState : ExecutionState).

Definition code (e : ExecutionError) : string :=
  match e with
  | BudgetExceededError _ _ _ => "BUDGET_EXCEEDED"
  | KillSwitchTriggeredError _ => "KILL_SWITCH_TRIGGERED"
  | InvalidStateTransitionError _ _ => "INVALID_STATE_TRANSITION"
  end.

(** What a [throw] can carry: a controller error, another [Error] (only its
    [message] is observable), or a value that is not an [Error] at all
    (only its [String(value)] rendering is observable). *)
Inductive Thrown : Type :=
| ExecErr (e : ExecutionError)
| OtherError (message : string)
| NonErrorValue (rendering : string).

(** ** Global state and the exception-and-state monad *)

Record Globals : Type := mkGlobals {
  killed : bool;                 (* killSwitch.ts: let killed *)
  killReason : option string;    (* killSwitch.ts: let killReason *)
  events : list StepEvent;       (* eventStore.ts: const events *)
  clock : nat -> Z;              (* successive results of Date.now() *)
  ticks : nat;                   (* how many times Date.now() was read *)
  uuid : nat -> string;          (* successive results of crypto.randomUUID() *)
  uuids : nat                    (* how many uuids were drawn *)
}.

Definition set_killed (k : bool) (rsn : option string) (g : Globals) : Globals :=
  mkGlobals k rsn (events g) (clock g) (ticks g) (uuid g) (uuids g).
Definition set_events (v : list StepEvent) (g : Globals) : Globals :=
  mkGlobals (killed g) (killReason g) v (clock g) (ticks g) (uuid g) (uuids g).
Definition tick (g : Globals) : Globals :=
  mkGlobals (killed g) (killReason g) (events g) (clock g) (S (ticks g))
    (uuid g) (uuids g).
Definition draw_uuid (g : Globals) : Globals :=
  mkGlobals (killed g) (killReason g) (events g) (clock g) (ticks g)
    (uuid g) (S (uuids g)).

Record St : Type := mkSt { glob : Globals; run : ExecutionRun }.

Inductive Outcome (A : Type) : Type :=
| Ok (a : A) (s : St)
| Throw (e : Thrown) (s : St).
Arguments Ok {A} a s.
Arguments Throw {A} e s.

Definition M (A : Type) : Type := St -> Outcome A.

Definition ret {A : Type} (a : A) : M A := fun s => Ok a s.

Definition bind {A B : Type} (m : M A) (k : A -> M B) : M B :=
  fun s => match m s with
           | Ok a s' => k a s'
           | Throw e s' => Throw e s'
           end.

Notation "x <- m ;; k" := (bind m (fun x => k))
  (at level 61, m at next level, right associativity).
Notation "m ;; k" := (bind m (fun _ => k))
  (at level 61, right associativity).

Definition throw {A : Type} (e : Thrown) : M A := fun s => Throw e s.

Definition get_run : M ExecutionRun := fun s => Ok (run s) s.
Definition modify_run (f : ExecutionRun -> ExecutionRun) : M unit :=
  fun s => Ok tt (mkSt (glob s) (f (run s))).
Definition get_glob : M Globals := fun s => Ok (glob s) s.
Definition modify_glob (f : Globals -> Globals) : M unit :=
  fun s => Ok tt (mkSt (f (glob s)) (run s)).

(** [Date.now()] *)
Definition date_now : M Z :=
  fun s => Ok (clock (glob s) (ticks (glob s))) (mkSt (tick (glob s)) (run s)).

(** [crypto.randomUUID()] *)
Definition randomUUID : M string :=
  fun s => Ok (uuid (glob s) (uuids (glob s))) (mkSt (draw_uuid (glob s)) (run s)).

(** [x ?? d] on an optional value. *)
Definition nullish {A : Type} (x : option A) (d : A) : A :=
  match x with Some a => a | None => d end.

(** ** Lifecycle state machine ([src/core/state.ts]) *)

Definition validTransitions (s : ExecutionState) : list ExecutionState :=
  match s with
  | CREATED => [RUNNING]
  | RUNNING => [PAUSED; COMPLETED; KILLED; FAILED]
  | PAUSED => [RUNNING; KILLED]
  | KILLED => []
  | COMPLETED => []
  | FAILED => []
  end.

(** [array.includes(x)] with [===] *)
Definition includes (l : list ExecutionState) (x : ExecutionState) : bool :=
  existsb (ExecutionState_eqb x) l.

Definition isTerminalState (s : ExecutionState) : bool :=
  ExecutionState_eqb s COMPLETED || ExecutionState_eqb s KILLED
  || ExecutionState_eqb s FAILED.

Definition is_undefined {A : Type} (x : option A) : bool :=
  match x with None => true | Some _ => false end.

Definition transitionState (toState : ExecutionState) : M unit :=
  r <- get_run;;
  let allowed := validTransitions (state r) in
  if negb (includes allowed toState)
  then throw (ExecErr (InvalidStateTransitionError (state r) toState))
  else
    modify_run (set_state toState);;
    r1 <- get_run;;
    (if ExecutionState_eqb toState RUNNING && is_undefined (startedAt r1)
     then t <- date_now;; modify_run (set_startedAt (Some t))
     else ret tt);;
    (if isTerminalState toState
     then t <- date_now;; modify_run (set_endedAt (Some t))
     else ret tt).

(** ** Kill switch ([src/core/killSwitch.ts], the documented version) *)

Definition killExecution (reason : string) : M unit :=
  modify_glob (set_killed true (Some reason)).

Definition isKilled : M bool := g <- get_glob;; ret (killed g).

Definition getKillReason : M (option string) := g <- get_glob;; ret (killReason g).

Definition assertAlive : M unit :=
  g <- get_glob;;
  if killed g
  then throw (ExecErr (KillSwitchTriggeredError
                         (nullish (killReason g) "Manual termination")))
  else ret tt.

Definition resetKillSwitch : M unit := modify_glob (set_killed false None).

(** ** Event store ([src/log/eventStore.ts]) *)

Definition logEvent (event : StepEvent) : M unit :=
  modify_glob (fun g => set_events (events g ++ [event]) g).

Definition getEvents : M (list StepEvent) := g <- get_glob;; ret (events g).

Definition clearEvents : M unit := modify_glob (set_events []).

(** ** Cost accounting ([src/core/cost.ts]) and the budget guard
    ([src/unnamed/part_005]) *)

(** Dollar amounts are exact rationals here, not IEEE-754 doubles: a sum
    such as 0.1 + 0.1 + 0.1 is 3/10, where JavaScript gives
    0.30000000000000004. *)
Definition addCost (tok : Z) (dollars : Q) : M unit :=
  modify_run (fun r => set_spent (mkSpent (tokens (spent r) + tok)
                                          (usd (spent r) + dollars)) r).

(** [a > b] on dollar amounts *)
Definition Qgtb (a b : Q) : bool := negb (Qle_bool a b).

Definition enforceLimits : M unit :=
  r <- get_run;;
  if Z.gtb (tokens (spent r)) (maxTokens (budget r))
  then throw (ExecErr (BudgetExceededError LimitTokens
                         (inject_Z (tokens (spent r)))
                         (inject_Z (maxTokens (budget r)))))
  else if Qgtb (usd (spent r)) (maxUsd (budget r))
  then throw (ExecErr (BudgetExceededError LimitUsd
                         (usd (spent r)) (maxUsd (budget r))))
  else ret tt.

(** ** Execution engine ([src/unnamed/part_003]) *)

(** Decimal rendering of a non-negative integer, as in a template literal. *)
Fixpoint digits_of (fuel : nat) (n : Z) (acc : string) : string :=
  match fuel with
  | O => acc
  | S f =>
      let acc' := String (ascii_of_nat (48 + Z.to_nat (n mod 10))) acc in
      if Z.eqb (n / 10) 0 then acc' else digits_of f (n / 10) acc'
  end.

Definition int_to_string (n : Z) : string :=
  if Z.ltb n 0
  then String "-" (digits_of (S (Z.to_nat (Z.log2 (- n)))) (- n) EmptyString)
  else digits_of (S (Z.to_nat (Z.log2 n))) n EmptyString.

Definition executeStep (stepNo : Z) (type : StepEventType) (desc : string)
  (tok : Z) (dollars : Q) : M unit :=
  assertAlive;;
  addCost tok dollars;;
  enforceLimits;;
  eid <- randomUUID;;
  ts <- date_now;;
  let event := mkStepEvent eid stepNo type desc dollars tok ts in
  logEvent event;;
  modify_run (fun r => set_steps (steps r ++ [event]) r).

(** The [for (let i = 0; i < maxSteps; i++)] loop, [k] iterations left. *)
Fixpoint step_loop (k : nat) (i : Z) : M unit :=
  match k with
  | O => ret tt
  | S k' =>
      executeStep (i + 1) LLM_CALL
        ("Executing agent step " ++ int_to_string (i + 1)) 50 (1 # 10);;
      step_loop k' (i + 1)
  end.

(** [runExecution(run, maxSteps)] for an integral [maxSteps]: the loop body
    runs [max 0 maxSteps] times.  The returned promise rejects exactly when
    the body throws, which is the [Throw] outcome. *)
Definition runExecution (maxSteps : Z) : M unit :=
  transitionState RUNNING;;
  step_loop (Z.to_nat maxSteps) 0;;
  transitionState COMPLETED.

(** [generateSummary(run)], [now] being the value read from [Date.now()]. *)
Definition generateSummary (now : Z) (r : ExecutionRun) : ExecutionSummary :=
  let sa := nullish (startedAt r) now in
  let ea := nullish (endedAt r) now in
  mkExecutionSummary (id r) (state r) (length (steps r)) (usd (spent r))
    (tokens (spent r)) (terminationReason r) (ea - sa) sa ea.

Section ErrorHandling.

(** [Number.prototype.toString], used by the message of a
    [BudgetExceededError]; the JS runtime provides it. *)
Variable number_toString : Q -> string.

Definition error_message (e : ExecutionError) : string :=
  match e with
  | BudgetExceededError lt sp lim =>
      (match lt with LimitTokens => "Token" | LimitUsd => "Cost" end)
        ++ " budget exceeded: spent " ++ number_toString sp
        ++ ", limit " ++ number_toString lim
  | KillSwitchTriggeredError reason =>
      "Execution terminated by kill switch: " ++ reason
  | InvalidStateTransitionError f t =>
      "Invalid state transition: " ++ ExecutionState_name f ++ " â†’ "
        ++ ExecutionState_name t
  end.

(** [error instanceof Error ? error.message : String(error)] *)
Definition thrown_message (t : Thrown) : string :=
  match t with
  | ExecErr e => error_message e
  | OtherError m => m
  | NonErrorValue s => s
  end.

Definition handleExecutionError (error : Thrown) : M unit :=
  let errorMessage := thrown_message error in
  modify_run (set_terminationReason (Some errorMessage));;
  k <- isKilled;;
  (if k
   then
     modify_run (set_state KILLED);;
     rsn <- getKillReason;;
     modify_run (set_terminationReason
                   (Some (nullish rsn "Execution terminated")))
   else
     match error with
     | ExecErr e =>
         modify_run (set_state (if String.eqb (code e) "KILL_SWITCH_TRIGGERED"
                                then KILLED else FAILED))
     | _ => modify_run (set_state FAILED)
     end);;
  t <- date_now;;
  modify_run (set_endedAt (Some t)).

End ErrorHandling.

(** ** More of the event store and the replay module *)

(** [getEventCount()] ([src/log/eventStore.ts]) *)
Definition getEventCount : M nat := g <- get_glob;; ret (length (events g)).

(** The string literal of each event type. *)
Definition StepEventType_name (t : StepEventType) : string :=
  match t with
  | LLM_CALL => "LLM_CALL" | TOOL_CALL => "TOOL_CALL"
  | DECISION => "DECISION" | ERROR => "ERROR"
  end.

(** The [byType] object of [summarizeEvents], a string-keyed record, kept as
    an association list in key-insertion order. *)
Fixpoint byType_lookup (k : string) (m : list (string * Z)) : option Z :=
  match m with
  | [] => None
  | (k', v) :: t => if String.eqb k k' then Some v else byType_lookup k t
  end.

(** [byType[k] = (byType[k] ?? 0) + 1]: an existing key keeps its place, a new
    key is added at the end. *)
Fixpoint byType_bump (k : string) (m : list (string * Z)) : list (string * Z) :=
  match m with
  | [] => [(k, 1%Z)]
  | (k', v) :: t =>
      if String.eqb k k' then (k', (v + 1)%Z) :: t else (k', v) :: byType_bump k t
  end.

Record EventsSummary : Type := mkEventsSummary {
  es_count : Z;
  es_totalCost : Q;
  es_totalTokens : Z;
  es_byType : list (string * Z)
}.

(** One iteration of the [for (const event of events)] loop of
    [summarizeEvents] on the accumulators [(byType, totalCost, totalTokens)];
    [totalCost] is an exact rational sum (see [addCost]). *)
Definition summarize_step (acc : list (string * Z) * Q * Z) (event : StepEvent)
  : list (string * Z) * Q * Z :=
  let '(byType, totalCost, totalTokens) := acc in
  (byType_bump (StepEventType_name (ev_type event)) byType,
   totalCost + cost event,
   (totalTokens + ev_tokens event)%Z).

(** [summarizeEvents(events)] ([src/src/replay/replay.ts]) *)
Definition summarizeEvents (evs : list StepEvent) : EventsSummary :=
  let '(byType, totalCost, totalTokens) := fold_left summarize_step evs ([], 0, 0%Z) in
  mkEventsSummary (Z.of_nat (length evs)) totalCost totalTokens byType.

(** ** The demo entry point ([src/unnamed/part_001]) as a caller *)

(** [runExecution(run).catch((error) => handleExecutionError(run, error))]:
    the state in which the [.finally] callback builds the summary. *)
Definition runWithErrorHandling (number_toString : Q -> string) (maxSteps : Z)
  : M unit :=
  fun s => match runExecution maxSteps s with
           | Ok _ s' => Ok tt s'
           | Throw e s' => handleExecutionError number_toString e s'
           end.

(** ** Reading the claims: the pairs the spec lists, kill-switch well-formedness *)

(** The allowed lifecycle edges as §4.1 of the spec enumerates them. *)
Definition spec_allowed_pair (a b : ExecutionState) : Prop :=
  (a = CREATED /\ b = RUNNING) \/ (a = RUNNING /\ b = PAUSED)
  \/ (a = RUNNING /\ b = COMPLETED) \/ (a = RUNNING /\ b = KILLED)
  \/ (a = RUNNING /\ b = FAILED) \/ (a = PAUSED /\ b = RUNNING)
  \/ (a = PAUSED /\ b = KILLED).

(** A fresh process: kill switch reset, empty event log. *)
Definition fresh_globals (clk : nat -> Z) (t0 : nat) (ids : nat -> string)
  (u0 : nat) : Globals :=
  mkGlobals false None [] clk t0 ids u0.

(** The kill switch is only ever set through [killExecution(reason)], which
    stores a reason together with the flag: a triggered switch has a reason. *)
Definition killswitch_wf (g : Globals) : Prop :=
  killed g = true -> killReason g <> None.

(** ** Generic facts about the monad *)

Lemma bind_Ok {A B : Type} (m : M A) (k : A -> M B) s a s' :
  m s = Ok a s' -> bind m k s = k a s'.
Proof. unfold bind; intros ->; reflexivity. Qed.

Lemma bind_Throw {A B : Type} (m : M A) (k : A -> M B) s e s' :
  m s = Throw e s' -> bind m k s = Throw e s'.
Proof. unfold bind; intros ->; reflexivity. Qed.

Ltac run_monad :=
  cbn [bind ret throw get_run modify_run get_glob modify_glob date_now
       randomUUID glob run] in *.

(** ** Claims *)

(** C1 (counterexample).  With budget [{maxTokens: 200, maxUsd: 0.5}], a
    fresh run and an empty log, [runExecution(run, 10)] does not end with five
    logged events: the fifth step already brings the tokens to 250 > 200. *)
Definition C1_start : St :=
  mkSt (fresh_globals (fun n => Z.of_nat n) 0 (fun _ => "uuid") 0)
       (createExecutionRun "run_1" (mkBudget 200 (1 # 2))).

Lemma C1_counterexample :
  ~ (exists s',
        runExecution 10 C1_start
        = Throw (ExecErr (BudgetExceededError LimitTokens 250 200)) s'
        /\ length (events (glob s')) = 5%nat).
Proof.
  intros [s' [H Hlen]].
  vm_compute in H. injection H as <-. vm_compute in Hlen. discriminate.
Qed.

(** C1 (amended).  For a fresh run in state CREATED with budget
    [{maxTokens: 200, maxUsd: 0.5}], an empty event log and the kill switch
    not triggered, [runExecution(run, 10)] fails with [BudgetExceeded] of
    kind tokens, spent 250 and limit 200, at the fifth step: steps 1..4
    succeed and are logged, the fifth is charged (250 tokens in [spent]) but
    not logged, so the event log holds exactly 4 events, equal to [run.steps],
    and the run is left in RUNNING for the caller to classify.  Whatever the
    clock, the uuid source and the run id. *)
Theorem C1_budget_scenario (rid : string) (clk : nat -> Z) (t0 : nat)
  (ids : nat -> string) (u0 : nat) :
  match runExecution 10
          (mkSt (fresh_globals clk t0 ids u0)
                (createExecutionRun rid (mkBudget 200 (1 # 2)))) with
  | Throw e s' =>
      e = ExecErr (BudgetExceededError LimitTokens 250 200)
      /\ length (events (glob s')) = 4%nat
      /\ map stepNumber (events (glob s')) = [1; 2; 3; 4]%Z
      /\ steps (run s') = events (glob s')
      /\ tokens (spent (run s')) = 250%Z
      /\ state (run s') = RUNNING
  | Ok _ _ => False
  end.
Proof.
  vm_compute. repeat split; reflexivity.
Qed.

(** C3.  [transitionState(run, target)] succeeds and sets [run.state] to
    [target] exactly on the seven edges CREATED->RUNNING,
    RUNNING->{PAUSED, COMPLETED, KILLED, FAILED}, PAUSED->{RUNNING, KILLED};
    on every other pair it throws [InvalidStateTransitionError(from, target)]
    and leaves the run (indeed the whole state) unchanged. *)
Theorem C3_transition_table (s : St) (target : ExecutionState) :
  (spec_allowed_pair (state (run s)) target ->
     exists s', transitionState target s = Ok tt s'
                /\ state (run s') = target)
  /\ (~ spec_allowed_pair (state (run s)) target ->
      transitionState target s
      = Throw (ExecErr (InvalidStateTransitionError (state (run s)) target)) s).
Proof.
  destruct s as [g [rid st b sp stp sa ea tr]]; cbn [run state].
  unfold spec_allowed_pair.
  destruct st, target, sa; vm_compute; split; intro H;
    try (exfalso; intuition discriminate);
    try (exfalso; apply H; tauto);
    try (eexists; split; reflexivity);
    reflexivity.
Qed.

(** The three outcomes of the budget guard. *)
Lemma enforceLimits_cases (s : St) :
  let sp := spent (run s) in
  let b := budget (run s) in
  ((tokens sp > maxTokens b)%Z
   /\ enforceLimits s
      = Throw (ExecErr (BudgetExceededError LimitTokens (inject_Z (tokens sp))
                          (inject_Z (maxTokens b)))) s)
  \/ ((tokens sp <= maxTokens b)%Z /\ maxUsd b < usd sp
      /\ enforceLimits s
         = Throw (ExecErr (BudgetExceededError LimitUsd (usd sp) (maxUsd b))) s)
  \/ ((tokens sp <= maxTokens b)%Z /\ usd sp <= maxUsd b
      /\ enforceLimits s = Ok tt s).
Proof.
  cbv zeta. unfold enforceLimits, Qgtb, throw. run_monad.
  rewrite Z.gtb_ltb.
  destruct (Z.ltb_spec (maxTokens (budget (run s))) (tokens (spent (run s))))
    as [Ht | Ht].
  - left. split; [lia | reflexivity].
  - right.
    destruct (Qle_bool (usd (spent (run s))) (maxUsd (budget (run s))))
      eqn:Hq; cbn [negb].
    + right. apply Qle_bool_iff in Hq. repeat split; assumption.
    + left. repeat split; try assumption.
      apply Qnot_le_lt. intros Hle. apply Qle_bool_iff in Hle. congruence.
Qed.

(** C6.  [enforceLimits(run)] throws [BudgetExceeded] of kind tokens exactly
    when [spent.tokens > maxTokens]; otherwise of kind usd exactly when
    [spent.usd > maxUsd]; otherwise it returns normally.  Spend equal to a
    limit is accepted, and when both limits are exceeded the kind reported is
    tokens.  In every case the state is left as it was. *)
Theorem C6_enforceLimits_spec (s : St) :
  let sp := spent (run s) in
  let b := budget (run s) in
  (enforceLimits s
   = Throw (ExecErr (BudgetExceededError LimitTokens (inject_Z (tokens sp))
                       (inject_Z (maxTokens b)))) s
   <-> (tokens sp > maxTokens b)%Z)
  /\ (enforceLimits s
      = Throw (ExecErr (BudgetExceededError LimitUsd (usd sp) (maxUsd b))) s
      <-> (tokens sp <= maxTokens b)%Z /\ maxUsd b < usd sp)
  /\ (enforceLimits s = Ok tt s
      <-> (tokens sp <= maxTokens b)%Z /\ usd sp <= maxUsd b)
  /\ ((tokens sp > maxTokens b)%Z -> maxUsd b < usd sp ->
      exists e_sp e_lim s',
        enforceLimits s = Throw (ExecErr (BudgetExceededError LimitTokens e_sp e_lim)) s').
Proof.
  cbv zeta.
  destruct (enforceLimits_cases s) as [[Ht He] | [[Ht [Hu He]] | [Ht [Hu He]]]];
    cbv zeta in *; rewrite He.
  - split; [split; [intros _; exact Ht | reflexivity] |].
    split; [split; [intros H; discriminate H | intros [H _]; lia] |].
    split; [split; [intros H; discriminate H | intros [H _]; lia] |].
    intros _ _. do 3 eexists. reflexivity.
  - split; [split; [intros H; discriminate H | intros H; lia] |].
    split; [split; [intros _; split; assumption | reflexivity] |].
    split; [split; [intros H; discriminate H |
                    intros [_ H]; exfalso; exact (Qlt_not_le _ _ Hu H)] |].
    intros H; lia.
  - split; [split; [intros H; discriminate H | intros H; lia] |].
    split; [split; [intros H; discriminate H |
                    intros [_ H]; exfalso; exact (Qlt_not_le _ _ H Hu)] |].
    split; [split; [intros _; split; assumption | reflexivity] |].
    intros H; lia.
Qed.

(** C2.  In [executeStep], once the kill switch lets the step through, the
    step's tokens and dollars are added to [run.spent] before the guard runs
    (the guard's error reports the new totals).  When the guard throws
    [BudgetExceeded], neither the global log nor [run.steps] receives an
    event, and the charge stays in [run.spent]; when it passes, the same
    charge is kept and one event with this step number is appended to both. *)
Theorem C2_charge_then_guard (s : St) (n : Z) (ty : StepEventType)
  (desc : string) (tok : Z) (dollars : Q) :
  killed (glob s) = false ->
  let sp' := mkSpent (tokens (spent (run s)) + tok)
                     (usd (spent (run s)) + dollars) in
  match executeStep n ty desc tok dollars s with
  | Throw e s' =>
      (e = ExecErr (BudgetExceededError LimitTokens (inject_Z (tokens sp'))
                      (inject_Z (maxTokens (budget (run s)))))
       \/ e = ExecErr (BudgetExceededError LimitUsd (usd sp')
                         (maxUsd (budget (run s)))))
      /\ events (glob s') = events (glob s)
      /\ steps (run s') = steps (run s)
      /\ spent (run s') = sp'
  | Ok _ s' =>
      spent (run s') = sp'
      /\ exists ev, stepNumber ev = n
                    /\ events (glob s') = (events (glob s) ++ [ev])%list
                    /\ steps (run s') = (steps (run s) ++ [ev])%list
  end.
Proof.
  intros Hk. cbv zeta.
  destruct s as [[k kr ev clk t ids u] [rid st b [tk ud] stp sa ea tr]].
  cbn in Hk. subst k.
  cbv [executeStep assertAlive addCost enforceLimits logEvent bind ret throw
       get_run modify_run get_glob modify_glob date_now randomUUID glob run
       killed set_spent set_steps set_events tick draw_uuid spent tokens usd
       budget events steps].
  destruct (tk + tok >? maxTokens b)%Z.
  - split; [left; reflexivity | repeat split].
  - unfold Qgtb. destruct (negb (Qle_bool (ud + dollars) (maxUsd b))).
    + split; [right; reflexivity | repeat split].
    + split; [reflexivity |]. eexists. repeat split; reflexivity.
Qed.

(** The kill-switch operations keep [killswitch_wf]. *)
Lemma fresh_globals_wf clk t0 ids u0 : killswitch_wf (fresh_globals clk t0 ids u0).
Proof. unfold killswitch_wf; cbn; discriminate. Qed.

Lemma killExecution_wf (reason : string) (s s' : St) :
  killExecution reason s = Ok tt s' -> killswitch_wf (glob s').
Proof. unfold killExecution, modify_glob; intros H; injection H as <-;
  unfold killswitch_wf; cbn; discriminate. Qed.

Lemma resetKillSwitch_wf (s s' : St) :
  resetKillSwitch s = Ok tt s' -> killswitch_wf (glob s').
Proof. unfold resetKillSwitch, modify_glob; intros H; injection H as <-;
  unfold killswitch_wf; cbn; discriminate. Qed.

Ltac crunch_handler :=
  cbv [handleExecutionError bind ret get_run modify_run get_glob modify_glob
       date_now isKilled getKillReason glob run killed killReason clock ticks
       tick set_state set_terminationReason set_endedAt state endedAt
       terminationReason nullish code].

(** C4 (amended).  [handleExecutionError(run, error)], with a kill switch that was set
    through [killExecution]: if the switch is triggered the run goes to KILLED
    with the switch's reason as [terminationReason], whatever the error;
    otherwise a [KillSwitchTriggeredError] gives KILLED, any other
    [ExecutionError] (e.g. [BudgetExceededError]) gives FAILED, and any
    unrecognized thrown value gives FAILED.  [endedAt] is set to the current
    time in every case, overwriting any value the state machine had already
    set.  The handler itself never throws. *)
Theorem C4_error_classification (number_toString : Q -> string) (s : St)
  (error : Thrown) :
  killswitch_wf (glob s) ->
  exists s',
    handleExecutionError number_toString error s = Ok tt s'
    /\ (killed (glob s) = true ->
        state (run s') = KILLED
        /\ terminationReason (run s') = killReason (glob s))
    /\ (killed (glob s) = false ->
        forall rsn, error = ExecErr (KillSwitchTriggeredError rsn) ->
        state (run s') = KILLED)
    /\ (killed (glob s) = false ->
        forall e, error = ExecErr e ->
        (forall rsn, e <> KillSwitchTriggeredError rsn) ->
        state (run s') = FAILED)
    /\ (killed (glob s) = false ->
        (forall e, error <> ExecErr e) ->
        state (run s') = FAILED)
    /\ endedAt (run s') = Some (clock (glob s) (ticks (glob s))).
Proof.
  intros Hwf.
  destruct s as [[k kr ev clk t ids u] r]; unfold killswitch_wf in Hwf;
    cbn in Hwf.
  destruct k.
  - destruct kr as [rsn |]; [| exfalso; apply (Hwf eq_refl); reflexivity].
    crunch_handler. eexists; split; [reflexivity |].
    repeat split; intros H; discriminate H.
  - crunch_handler.
    destruct error as [[lt a b | rsn | f t'] | m | m]; cbn;
      eexists; (split; [reflexivity |]);
      repeat split; cbn; intros; try discriminate;
      repeat match goal with
             | H : ExecErr _ = ExecErr _ |- _ => injection H as H; subst
             end;
      try (exfalso; match goal with
                    | H : forall rsn, _ <> KillSwitchTriggeredError rsn |- _ =>
                        eapply H
                    | H : forall e, _ <> ExecErr e |- _ => eapply H
                    end; reflexivity);
      try discriminate; reflexivity.
Qed.

(** C10.  [handleExecutionError(run, error)] assigns [run.state] directly to
    KILLED or FAILED without the state machine's validation, and overwrites
    [terminationReason] and [endedAt] whatever they held: the new values
    depend only on the error, the kill switch and the clock.  A COMPLETED run
    leaves COMPLETED, and from any terminal state the handler sets a state
    that [transitionState] would have refused. *)
Theorem C10_handler_overwrites_terminal (number_toString : Q -> string)
  (s : St) (error : Thrown) :
  exists s',
    handleExecutionError number_toString error s = Ok tt s'
    /\ (state (run s') = KILLED \/ state (run s') = FAILED)
    /\ terminationReason (run s')
       = Some (if killed (glob s)
               then nullish (killReason (glob s)) "Execution terminated"
               else thrown_message number_toString error)
    /\ endedAt (run s') = Some (clock (glob s) (ticks (glob s)))
    /\ (state (run s) = COMPLETED -> state (run s') <> COMPLETED)
    /\ (isTerminalState (state (run s)) = true ->
        transitionState (state (run s')) s
           = Throw (ExecErr (InvalidStateTransitionError (state (run s))
                               (state (run s')))) s).
Proof.
  destruct s as [[k kr ev clk t ids u] [rid st b sp stp sa ea tr]].
  destruct k; crunch_handler.
  - eexists; split; [reflexivity |]. cbn.
    split; [left; reflexivity |]. split; [reflexivity |]. split; [reflexivity |].
    split; [intros _; discriminate |].
    destruct st; cbn; try discriminate; intros _; reflexivity.
  - destruct error as [[lt a b' | rsn | f t'] | m | m]; cbn;
      eexists; (split; [reflexivity |]); cbn;
      (split; [first [left; reflexivity | right; reflexivity] |]);
      split; try reflexivity; split; try reflexivity;
      (split; [intros _; discriminate |]);
      destruct st; cbn; try discriminate; intros _; reflexivity.
Qed.

(** ** Lifecycle facts used below *)

(** A refused edge throws before any mutation. *)
Lemma transitionState_refused (s : St) (toState : ExecutionState) :
  includes (validTransitions (state (run s))) toState = false ->
  transitionState toState s
  = Throw (ExecErr (InvalidStateTransitionError (state (run s)) toState)) s.
Proof.
  intros H. unfold transitionState. cbv [bind get_run]. cbv beta zeta.
  rewrite H. reflexivity.
Qed.

(** Runs obtained from [createExecutionRun] by successful transitions
    (a failed transition leaves the run as it was). *)
Inductive reachable_run : ExecutionRun -> Prop :=
| reach_created (rid : string) (b : Budget) :
    reachable_run (createExecutionRun rid b)
| reach_transition (r : ExecutionRun) (g : Globals) (toState : ExecutionState)
    (g' : Globals) (r' : ExecutionRun) :
    reachable_run r ->
    transitionState toState (mkSt g r) = Ok tt (mkSt g' r') ->
    reachable_run r'.

(** What a successful transition does to [state] and [startedAt]. *)
Lemma transitionState_ok_startedAt (g : Globals) (r : ExecutionRun)
  (toState : ExecutionState) (g' : Globals) (r' : ExecutionRun) :
  transitionState toState (mkSt g r) = Ok tt (mkSt g' r') ->
  includes (validTransitions (state r)) toState = true
  /\ state r' = toState
  /\ startedAt r' = (if ExecutionState_eqb toState RUNNING
                     then match startedAt r with
                          | Some t => Some t
                          | None => Some (clock g (ticks g))
                          end
                     else startedAt r).
Proof.
  destruct r as [rid st b sp stp sa ea tr]; cbn [state startedAt].
  destruct st, toState, sa; vm_compute; intros H; try discriminate H;
    injection H as _ <-; repeat split.
Qed.

Lemma reachable_startedAt (r : ExecutionRun) :
  reachable_run r -> (startedAt r = None <-> state r = CREATED).
Proof.
  induction 1 as [rid b | r g toState g' r' Hr IH Ht].
  - cbn. split; reflexivity.
  - apply transitionState_ok_startedAt in Ht as [Hinc [Hst Hsa]].
    rewrite Hsa, Hst.
    destruct (state r), toState; cbn in Hinc; try discriminate Hinc; cbn;
      destruct (startedAt r); split; intros H; try discriminate H;
      try (apply IH in H; discriminate H); try (apply IH; reflexivity).
Qed.

(** C5 (counterexample).  A PAUSED run does not make [runExecution] fail at
    its first transition: PAUSED->RUNNING is a valid edge, and the run goes on
    to execute and log its step. *)
Definition C5_paused_start : St :=
  mkSt (fresh_globals (fun n => Z.of_nat n) 0 (fun _ => "uuid") 0)
       (mkExecutionRun "run_1" PAUSED (mkBudget 200 (1 # 2)) (mkSpent 0 0) []
          (Some 0%Z) None None).

Lemma C5_counterexample :
  ~ (exists e s', runExecution 1 C5_paused_start = Throw e s')
  /\ (exists s', runExecution 1 C5_paused_start = Ok tt s'
                 /\ length (events (glob s')) = 1%nat).
Proof.
  split.
  - intros [e [s' H]]. vm_compute in H. discriminate H.
  - eexists; split; [vm_compute; reflexivity | reflexivity].
Qed.

(** C5 (amended).  For every run whose state is neither CREATED nor PAUSED
    (so RUNNING, COMPLETED, KILLED or FAILED), [runExecution(run, maxSteps)]
    fails at its first action with [InvalidStateTransitionError(state,
    RUNNING)], leaving the run and the event log exactly as they were: no step
    executed, no cost, no event.  A PAUSED run passes that first transition
    (to RUNNING) instead. *)
Theorem C5_start_refused (s : St) (maxSteps : Z) :
  (state (run s) <> CREATED -> state (run s) <> PAUSED ->
   runExecution maxSteps s
   = Throw (ExecErr (InvalidStateTransitionError (state (run s)) RUNNING)) s)
  /\ (state (run s) = PAUSED ->
      exists s1, transitionState RUNNING s = Ok tt s1
                 /\ state (run s1) = RUNNING).
Proof.
  split.
  - intros Hc Hp. unfold runExecution. apply bind_Throw.
    apply transitionState_refused.
    destruct (state (run s)); cbn; congruence.
  - intros Hp. destruct s as [g [rid st b sp stp sa ea tr]]; cbn in Hp; subst st.
    destruct sa; eexists; split; vm_compute; reflexivity.
Qed.

(** C7.  Along any sequence of transitions from [createExecutionRun],
    [startedAt] is unset exactly while the run is CREATED; the transition that
    leaves CREATED (necessarily to RUNNING) sets it to the current time; no
    transition enters CREATED again; and once set it never changes, in
    particular a PAUSED->RUNNING transition keeps it. *)
Theorem C7_startedAt_set_once (r : ExecutionRun) (g : Globals)
  (toState : ExecutionState) (g' : Globals) (r' : ExecutionRun) :
  reachable_run r ->
  transitionState toState (mkSt g r) = Ok tt (mkSt g' r') ->
  (startedAt r = None <-> state r = CREATED)
  /\ state r' <> CREATED
  /\ (state r = CREATED ->
      toState = RUNNING /\ startedAt r = None
      /\ startedAt r' = Some (clock g (ticks g)))
  /\ (forall t, startedAt r = Some t -> startedAt r' = Some t)
  /\ (state r = PAUSED -> toState = RUNNING ->
      startedAt r <> None /\ startedAt r' = startedAt r).
Proof.
  intros Hr Ht.
  pose proof (reachable_startedAt r Hr) as Hinv.
  apply transitionState_ok_startedAt in Ht as [Hinc [Hst Hsa]].
  rewrite Hst, Hsa.
  split; [exact Hinv |].
  split; [destruct (state r), toState; cbn in Hinc; congruence |].
  split.
  - intros Hc. rewrite Hc in Hinc.
    destruct toState; cbn in Hinc; try discriminate Hinc.
    assert (Hn : startedAt r = None) by (apply Hinv; exact Hc).
    rewrite Hn. repeat split.
  - split.
    + intros t Hs. rewrite Hs. destruct (ExecutionState_eqb toState RUNNING);
        reflexivity.
    + intros Hp ->. cbn.
      destruct (startedAt r) as [t |] eqn:Hs.
      * split; [discriminate | reflexivity].
      * exfalso. assert (state r = CREATED) by (apply Hinv; reflexivity).
        congruence.
Qed.

(** C8.  For every run in CREATED, whatever the kill switch says,
    [runExecution(run, 0)] succeeds: the run goes CREATED->RUNNING and then
    RUNNING->COMPLETED, no event is appended to the log or to [run.steps], and
    [run.spent] is left as it was. *)
Theorem C8_zero_steps (s : St) :
  state (run s) = CREATED ->
  exists s1 s',
    transitionState RUNNING s = Ok tt s1
    /\ state (run s1) = RUNNING
    /\ transitionState COMPLETED s1 = Ok tt s'
    /\ runExecution 0 s = Ok tt s'
    /\ state (run s') = COMPLETED
    /\ events (glob s') = events (glob s)
    /\ steps (run s') = steps (run s)
    /\ spent (run s') = spent (run s).
Proof.
  intros Hc. destruct s as [g [rid st b sp stp sa ea tr]]; cbn in Hc; subst st.
  destruct sa; do 2 eexists; vm_compute; repeat split.
Qed.

(** C9 (counterexample).  A run that has started at 100 and has not ended
    yet, summarized at time 250: [endedAt] is unset, yet [durationMs] is 150,
    not 0. *)
Definition C9_running : ExecutionRun :=
  mkExecutionRun "run_1" RUNNING (mkBudget 200 (1 # 2)) (mkSpent 0 0) []
    (Some 100%Z) None None.

Lemma C9_counterexample :
  ~ ((startedAt C9_running = None \/ endedAt C9_running = None) ->
     durationMs (generateSummary 250 C9_running) = 0%Z).
Proof.
  intros H. specialize (H (or_intror eq_refl)). vm_compute in H. discriminate H.
Qed.

(** C9 (amended).  [generateSummary(run)] at current time [now] reports
    [durationMs = endedAt - startedAt] when both are set; an unset field is
    replaced by [now], so the duration is 0 when both are unset,
    [now - startedAt] when only [endedAt] is unset, and [endedAt - now] when
    only [startedAt] is unset.  The summary's [startedAt] and [endedAt] are the
    values used. *)
Theorem C9_duration (now : Z) (r : ExecutionRun) :
  let sm := generateSummary now r in
  durationMs sm = (sum_endedAt sm - sum_startedAt sm)%Z
  /\ (forall a b, startedAt r = Some a -> endedAt r = Some b ->
      durationMs sm = (b - a)%Z)
  /\ (startedAt r = None -> endedAt r = None -> durationMs sm = 0%Z)
  /\ (forall a, startedAt r = Some a -> endedAt r = None ->
      durationMs sm = (now - a)%Z)
  /\ (forall b, startedAt r = None -> endedAt r = Some b ->
      durationMs sm = (b - now)%Z).
Proof.
  cbv zeta. unfold generateSummary, nullish; cbn [durationMs sum_endedAt sum_startedAt].
  split; [reflexivity |].
  repeat split; intros; repeat match goal with H : _ = _ |- _ => rewrite H; clear H end;
    lia.
Qed.

(** ** Concrete runs for the witnesses *)

Definition outcome_state {A : Type} (o : Outcome A) : St :=
  match o with Ok _ s => s | Throw _ s => s end.

Definition demo_globals : Globals :=
  fresh_globals (fun n => Z.of_nat n) 0 (fun _ => "uuid") 0.
Definition demo_run : ExecutionRun :=
  createExecutionRun "run_1" (mkBudget 200 (1 # 2)).
Definition demo_running : St :=
  outcome_state (transitionState RUNNING (mkSt demo_globals demo_run)).
Definition demo_paused : St := outcome_state (transitionState PAUSED demo_running).
Definition demo_resumed : St := outcome_state (transitionState RUNNING demo_paused).
(** The same fresh run while the kill switch is triggered. *)
Definition demo_killed : St :=
  mkSt (mkGlobals true (Some "operator stop") [] (fun n => Z.of_nat n) 0
          (fun _ => "uuid") 0)
       demo_run.

(** The fresh run after four steps of 50 tokens: 200 tokens spent, the whole
    token budget. *)
Definition demo_four_steps : St := outcome_state (step_loop 4 0 demo_running).

Lemma C2_witness :
  killed (glob demo_four_steps) = false
  /\ (exists e s', executeStep 5 LLM_CALL "Executing agent step 5" 50 (1 # 10)
                     demo_four_steps = Throw e s')
  /\ (let sp' := mkSpent (tokens (spent (run demo_four_steps)) + 50)
                         (usd (spent (run demo_four_steps)) + (1 # 10)) in
      match executeStep 5 LLM_CALL "Executing agent step 5" 50 (1 # 10)
              demo_four_steps with
      | Throw e s' =>
          (e = ExecErr (BudgetExceededError LimitTokens (inject_Z (tokens sp'))
                          (inject_Z (maxTokens (budget (run demo_four_steps)))))
           \/ e = ExecErr (BudgetExceededError LimitUsd (usd sp')
                             (maxUsd (budget (run demo_four_steps)))))
          /\ events (glob s') = events (glob demo_four_steps)
          /\ steps (run s') = steps (run demo_four_steps)
          /\ spent (run s') = sp'
      | Ok _ s' =>
          spent (run s') = sp'
          /\ exists ev, stepNumber ev = 5%Z
                        /\ events (glob s') = (events (glob demo_four_steps) ++ [ev])%list
                        /\ steps (run s') = (steps (run demo_four_steps) ++ [ev])%list
      end).
Proof.
  split; [vm_compute; reflexivity |].
  split; [do 2 eexists; vm_compute; reflexivity |].
  apply (C2_charge_then_guard demo_four_steps 5 LLM_CALL "Executing agent step 5"
           50 (1 # 10)).
  vm_compute; reflexivity.
Defined.

Lemma C4_witness :
  killswitch_wf (glob demo_killed)
  /\ exists s',
    handleExecutionError (fun _ => "n")
      (ExecErr (BudgetExceededError LimitTokens 250 200)) demo_killed = Ok tt s'
    /\ (killed (glob demo_killed) = true ->
        state (run s') = KILLED
        /\ terminationReason (run s') = killReason (glob demo_killed))
    /\ (killed (glob demo_killed) = false ->
        forall rsn, ExecErr (BudgetExceededError LimitTokens 250 200)
                    = ExecErr (KillSwitchTriggeredError rsn) ->
        state (run s') = KILLED)
    /\ (killed (glob demo_killed) = false ->
        forall e, ExecErr (BudgetExceededError LimitTokens 250 200) = ExecErr e ->
        (forall rsn, e <> KillSwitchTriggeredError rsn) ->
        state (run s') = FAILED)
    /\ (killed (glob demo_killed) = false ->
        (forall e, ExecErr (BudgetExceededError LimitTokens 250 200) <> ExecErr e) ->
        state (run s') = FAILED)
    /\ endedAt (run s') = Some (clock (glob demo_killed) (ticks (glob demo_killed))).
Proof.
  assert (Hwf : killswitch_wf (glob demo_killed))
    by (unfold killswitch_wf; cbn; discriminate).
  split; [exact Hwf |].
  exact (C4_error_classification (fun _ => "n") demo_killed
           (ExecErr (BudgetExceededError LimitTokens 250 200)) Hwf).
Defined.

(** A run that already ended: COMPLETED after two steps, [endedAt] set. *)
Definition C4_completed : St := outcome_state (runExecution 2 (mkSt demo_globals demo_run)).

Lemma C4_counterexample :
  endedAt (run C4_completed) <> None
  /\ killswitch_wf (glob C4_completed)
  /\ exists s',
       handleExecutionError (fun _ => "n") (OtherError "late failure") C4_completed
       = Ok tt s'
       /\ endedAt (run s') <> endedAt (run C4_completed).
Proof.
  split; [vm_compute; discriminate |].
  split; [unfold killswitch_wf; vm_compute; discriminate |].
  eexists; split; [vm_compute; reflexivity |].
  vm_compute; discriminate.
Qed.

Lemma C7_witness :
  reachable_run (run demo_paused)
  /\ transitionState RUNNING (mkSt (glob demo_paused) (run demo_paused))
     = Ok tt (mkSt (glob demo_resumed) (run demo_resumed))
  /\ ((startedAt (run demo_paused) = None <-> state (run demo_paused) = CREATED)
      /\ state (run demo_resumed) <> CREATED
      /\ (state (run demo_paused) = CREATED ->
          RUNNING = RUNNING /\ startedAt (run demo_paused) = None
          /\ startedAt (run demo_resumed)
             = Some (clock (glob demo_paused) (ticks (glob demo_paused))))
      /\ (forall t, startedAt (run demo_paused) = Some t ->
          startedAt (run demo_resumed) = Some t)
      /\ (state (run demo_paused) = PAUSED -> RUNNING = RUNNING ->
          startedAt (run demo_paused) <> None
          /\ startedAt (run demo_resumed) = startedAt (run demo_paused))).
Proof.
  assert (Hr : reachable_run (run demo_paused)).
  { apply (reach_transition (run demo_running) (glob demo_running) PAUSED
             (glob demo_paused) (run demo_paused)).
    - apply (reach_transition demo_run demo_globals RUNNING
               (glob demo_running) (run demo_running)).
      + apply reach_created.
      + vm_compute; reflexivity.
    - vm_compute; reflexivity. }
  assert (Ht : transitionState RUNNING (mkSt (glob demo_paused) (run demo_paused))
               = Ok tt (mkSt (glob demo_resumed) (run demo_resumed)))
    by (vm_compute; reflexivity).
  split; [exact Hr |]. split; [exact Ht |].
  exact (C7_startedAt_set_once (run demo_paused) (glob demo_paused) RUNNING
           (glob demo_resumed) (run demo_resumed) Hr Ht).
Defined.

Lemma C8_witness :
  state (run demo_killed) = CREATED
  /\ exists s1 s',
    transitionState RUNNING demo_killed = Ok tt s1
    /\ state (run s1) = RUNNING
    /\ transitionState COMPLETED s1 = Ok tt s'
    /\ runExecution 0 demo_killed = Ok tt s'
    /\ state (run s') = COMPLETED
    /\ events (glob s') = events (glob demo_killed)
    /\ steps (run s') = steps (run demo_killed)
    /\ spent (run s') = spent (run demo_killed).
Proof.
  split; [reflexivity |].
  apply (C8_zero_steps demo_killed). reflexivity.
Defined.

(** ** Further properties of the code *)

(** The parts of the state a step never touches. *)
Definition same_frame (s s' : St) : Prop :=
  killed (glob s') = killed (glob s)
  /\ killReason (glob s') = killReason (glob s)
  /\ id (run s') = id (run s)
  /\ state (run s') = state (run s)
  /\ budget (run s') = budget (run s)
  /\ startedAt (run s') = startedAt (run s)
  /\ endedAt (run s') = endedAt (run s)
  /\ terminationReason (run s') = terminationReason (run s).

Lemma same_frame_refl (s : St) : same_frame s s.
Proof. repeat split. Qed.

Lemma same_frame_trans (s1 s2 s3 : St) :
  same_frame s1 s2 -> same_frame s2 s3 -> same_frame s1 s3.
Proof.
  intros (H1 & H2 & H3 & H4 & H5 & H6 & H7 & H8)
         (K1 & K2 & K3 & K4 & K5 & K6 & K7 & K8).
  repeat split; congruence.
Qed.

(** What [enforceLimits] accepts. *)
Definition within_budget (r : ExecutionRun) : Prop :=
  (tokens (spent r) <= maxTokens (budget r))%Z /\ usd (spent r) <= maxUsd (budget r).

(** The dollars after [k] more charges of [0.1], added one at a time. *)
Fixpoint add_steps (u : Q) (k : nat) : Q :=
  match k with
  | O => u
  | S k' => add_steps (u + (1 # 10)) k'
  end.

(** The events logged by the loop from counter [i]: step numbers [i+1, i+2,
    ...] with their descriptions. *)
Fixpoint numbered_from (i : Z) (l : list StepEvent) : Prop :=
  match l with
  | [] => True
  | ev :: t =>
      stepNumber ev = (i + 1)%Z
      /\ description ev = "Executing agent step " ++ int_to_string (i + 1)
      /\ ev_type ev = LLM_CALL
      /\ ev_tokens ev = 50%Z
      /\ cost ev = 1 # 10
      /\ numbered_from (i + 1) t
  end.

Lemma add_steps_eq (u : Q) (k : nat) :
  add_steps u k == u + inject_Z (Z.of_nat k) * (1 # 10).
Proof.
  revert u. induction k as [| k IH]; intros u; cbn [add_steps].
  - cbn. ring.
  - rewrite IH. rewrite Nat2Z.inj_succ, <- Z.add_1_r, inject_Z_plus. ring.
Qed.

(** [executeStep] on a live kill switch: either it logs one event and stays
    within budget, or it throws a budget error with the charge recorded and
    nothing logged. *)
Lemma executeStep_alive (s : St) (n : Z) (ty : StepEventType) (d : string)
  (tok : Z) (dollars : Q) :
  killed (glob s) = false ->
  match executeStep n ty d tok dollars s with
  | Ok _ s' =>
      same_frame s s'
      /\ tokens (spent (run s')) = (tokens (spent (run s)) + tok)%Z
      /\ usd (spent (run s')) = usd (spent (run s)) + dollars
      /\ within_budget (run s')
      /\ exists ev, stepNumber ev = n /\ description ev = d /\ ev_type ev = ty
                    /\ ev_tokens ev = tok /\ cost ev = dollars
                    /\ events (glob s') = (events (glob s) ++ [ev])%list
                    /\ steps (run s') = (steps (run s) ++ [ev])%list
  | Throw e s' =>
      same_frame s s'
      /\ tokens (spent (run s')) = (tokens (spent (run s)) + tok)%Z
      /\ usd (spent (run s')) = usd (spent (run s)) + dollars
      /\ ~ within_budget (run s')
      /\ events (glob s') = events (glob s)
      /\ steps (run s') = steps (run s)
      /\ exists lt a b, e = ExecErr (BudgetExceededError lt a b)
  end.
Proof.
  intros Hk.
  destruct s as [[k kr ev clk t ids u] [rid st b [tk ud] stp sa ea tr]].
  cbn in Hk. subst k. unfold within_budget.
  cbv [executeStep assertAlive addCost enforceLimits logEvent bind ret throw
       get_run modify_run get_glob modify_glob date_now randomUUID glob run
       killed set_spent set_steps set_events tick draw_uuid spent tokens usd
       budget events steps same_frame killReason id state startedAt endedAt
       terminationReason].
  destruct (tk + tok >? maxTokens b)%Z eqn:Ht.
  - rewrite Z.gtb_ltb, Z.ltb_lt in Ht.
    repeat split; try reflexivity.
    + intros [H _]; lia.
    + do 3 eexists; reflexivity.
  - rewrite Z.gtb_ltb, Z.ltb_ge in Ht. unfold Qgtb.
    destruct (Qle_bool (ud + dollars) (maxUsd b)) eqn:Hq; cbn [negb].
    + apply Qle_bool_iff in Hq.
      repeat split; try reflexivity; try assumption.
      eexists; repeat split; reflexivity.
    + repeat split; try reflexivity.
      * intros [_ H]. apply Qle_bool_iff in H. congruence.
      * do 3 eexists; reflexivity.
Qed.

(** [executeStep] on a triggered kill switch throws before any effect. *)
Lemma executeStep_killed (s : St) (n : Z) (ty : StepEventType) (d : string)
  (tok : Z) (dollars : Q) :
  killed (glob s) = true ->
  executeStep n ty d tok dollars s
  = Throw (ExecErr (KillSwitchTriggeredError
                      (nullish (killReason (glob s)) "Manual termination"))) s.
Proof.
  intros Hk. unfold executeStep. apply bind_Throw.
  unfold assertAlive. cbv [bind get_glob throw]. rewrite Hk. reflexivity.
Qed.

(** The loop of [runExecution] with a live kill switch: either all [k] steps
    are logged, or the loop stops with a budget error on the step after the
    last logged one, which is charged but not logged. *)
Lemma step_loop_alive (k : nat) : forall (i : Z) (s : St),
  killed (glob s) = false ->
  match step_loop k i s with
  | Ok _ s' =>
      same_frame s s'
      /\ exists new, length new = k /\ numbered_from i new
         /\ events (glob s') = (events (glob s) ++ new)%list
         /\ steps (run s') = (steps (run s) ++ new)%list
         /\ tokens (spent (run s'))
            = (tokens (spent (run s)) + 50 * Z.of_nat k)%Z
         /\ usd (spent (run s')) = add_steps (usd (spent (run s))) k
         /\ ((0 < k)%nat -> within_budget (run s'))
  | Throw e s' =>
      same_frame s s'
      /\ (exists lt a b, e = ExecErr (BudgetExceededError lt a b))
      /\ ~ within_budget (run s')
      /\ exists new, (length new < k)%nat /\ numbered_from i new
         /\ events (glob s') = (events (glob s) ++ new)%list
         /\ steps (run s') = (steps (run s) ++ new)%list
         /\ tokens (spent (run s'))
            = (tokens (spent (run s)) + 50 * Z.of_nat (S (length new)))%Z
         /\ usd (spent (run s'))
            = add_steps (usd (spent (run s))) (S (length new))
         /\ ((0 < length new)%nat ->
             (tokens (spent (run s)) + 50 * Z.of_nat (length new)
              <= maxTokens (budget (run s)))%Z
             /\ add_steps (usd (spent (run s))) (length new)
                <= maxUsd (budget (run s)))
  end.
Proof.
  induction k as [| k IH]; intros i s Hk.
  - cbn [step_loop ret]. split; [apply same_frame_refl |].
    exists []. repeat split; try (rewrite app_nil_r; reflexivity); try lia.
  - cbn [step_loop]. unfold bind at 1.
    pose proof (executeStep_alive s (i + 1) LLM_CALL
                  ("Executing agent step " ++ int_to_string (i + 1)) 50 (1 # 10) Hk)
      as HE.
    destruct (executeStep (i + 1) LLM_CALL
                ("Executing agent step " ++ int_to_string (i + 1)) 50 (1 # 10) s)
      as [[] s1 | e s1].
    + destruct HE as (HF1 & Ht1 & Hu1 & Hw1 & ev & Hn & Hd & Hty & Htk & Hc & He1 & Hs1).
      assert (Hk1 : killed (glob s1) = false)
        by (destruct HF1 as [F _]; congruence).
      specialize (IH (i + 1)%Z s1 Hk1).
      destruct HF1 as (F1 & F2 & F3 & F4 & F5 & F6 & F7 & F8).
      destruct (step_loop k (i + 1) s1) as [[] s' | e s'].
      * destruct IH as (HF2 & new & Hl & Hnum & He2 & Hs2 & Ht2 & Hu2 & Hw2).
        split; [apply (same_frame_trans s s1 s'); [repeat split; assumption | exact HF2] |].
        exists (ev :: new). split; [cbn; lia |].
        split; [cbn; repeat split; assumption |].
        split; [rewrite He2, He1, <- app_assoc; reflexivity |].
        split; [rewrite Hs2, Hs1, <- app_assoc; reflexivity |].
        split; [rewrite Ht2, Ht1; lia |].
        split; [rewrite Hu2, Hu1; reflexivity |].
        intros _. destruct k as [| k'].
        -- destruct HF2 as (_ & _ & _ & _ & G5 & _).
           unfold within_budget in *. rewrite G5, Ht2, Hu2. cbn [add_steps].
           split; [lia | apply Hw1].
        -- apply Hw2. lia.
      * destruct IH as (HF2 & Herr & Hnw & new & Hl & Hnum & He2 & Hs2 & Ht2 & Hu2 & Hw2).
        split; [apply (same_frame_trans s s1 s'); [repeat split; assumption | exact HF2] |].
        split; [exact Herr |]. split; [exact Hnw |].
        exists (ev :: new). split; [cbn; lia |].
        split; [cbn; repeat split; assumption |].
        split; [rewrite He2, He1, <- app_assoc; reflexivity |].
        split; [rewrite Hs2, Hs1, <- app_assoc; reflexivity |].
        split; [rewrite Ht2, Ht1; cbn [length]; lia |].
        split; [rewrite Hu2, Hu1; reflexivity |].
        intros _. cbn [length add_steps]. rewrite <- Hu1, <- F5.
        destruct new as [| ev' new'].
        -- cbn [length add_steps]. unfold within_budget in Hw1.
           split; [lia | apply Hw1].
        -- destruct Hw2 as [Hw2t Hw2u]; [cbn; lia |].
           split; [rewrite Ht1 in Hw2t; lia | exact Hw2u].
    + destruct HE as (HF1 & Ht1 & Hu1 & Hnw & He1 & Hs1 & Herr).
      cbv beta iota.
      split; [exact HF1 |]. split; [exact Herr |]. split; [exact Hnw |].
      exists []. split; [cbn; lia |]. split; [exact I |].
      split; [rewrite app_nil_r; exact He1 |].
      split; [rewrite app_nil_r; exact Hs1 |].
      split; [rewrite Ht1; cbn; lia |].
      split; [rewrite Hu1; reflexivity |].
      cbn; intros H; lia.
Qed.

(** What [transitionState] does, for every state and target. *)
Lemma transitionState_ok_frame (s : St) (toState : ExecutionState) :
  match transitionState toState s with
  | Ok _ s' =>
      includes (validTransitions (state (run s))) toState = true
      /\ state (run s') = toState
      /\ id (run s') = id (run s) /\ budget (run s') = budget (run s)
      /\ spent (run s') = spent (run s) /\ steps (run s') = steps (run s)
      /\ terminationReason (run s') = terminationReason (run s)
      /\ events (glob s') = events (glob s)
      /\ killed (glob s') = killed (glob s)
      /\ killReason (glob s') = killReason (glob s)
      /\ startedAt (run s') = (if ExecutionState_eqb toState RUNNING
                               then match startedAt (run s) with
                                    | Some t => Some t
                                    | None => Some (clock (glob s) (ticks (glob s)))
                                    end
                               else startedAt (run s))
      /\ endedAt (run s') = (if isTerminalState toState
                             then Some (clock (glob s) (ticks (glob s)))
                             else endedAt (run s))
  | Throw e s' =>
      includes (validTransitions (state (run s))) toState = false
      /\ e = ExecErr (InvalidStateTransitionError (state (run s)) toState)
      /\ s' = s
  end.
Proof.
  destruct s as [g [rid st b sp stp sa ea tr]].
  destruct st, toState, sa; vm_compute; repeat split.
Qed.

Lemma transitionState_valid_ok (s : St) (toState : ExecutionState) :
  includes (validTransitions (state (run s))) toState = true ->
  exists s', transitionState toState s = Ok tt s'.
Proof.
  intros H. pose proof (transitionState_ok_frame s toState) as HT.
  destruct (transitionState toState s) as [[] s' | e s'].
  - eexists; reflexivity.
  - destruct HT as [HT _]; congruence.
Qed.

(** The loop of [runExecution] with a triggered kill switch: nothing happens. *)
Lemma step_loop_killed (k : nat) (i : Z) (s : St) :
  killed (glob s) = true ->
  step_loop k i s
  = match k with
    | O => Ok tt s
    | S _ => Throw (ExecErr (KillSwitchTriggeredError
                               (nullish (killReason (glob s)) "Manual termination"))) s
    end.
Proof.
  intros Hk. destruct k as [| k]; [reflexivity |].
  cbn [step_loop]. apply bind_Throw. apply executeStep_killed; exact Hk.
Qed.

(** A run that [runExecution] returns from normally is COMPLETED with its end
    time set. *)
Lemma runExecution_ok_completed (m : Z) (s s' : St) :
  runExecution m s = Ok tt s' ->
  state (run s') = COMPLETED /\ endedAt (run s') <> None.
Proof.
  unfold runExecution. unfold bind at 1.
  destruct (transitionState RUNNING s) as [[] s1 | e s1]; [| discriminate].
  unfold bind at 1.
  destruct (step_loop (Z.to_nat m) 0 s1) as [[] s2 | e s2]; [| discriminate].
  intros H. pose proof (transitionState_ok_frame s2 COMPLETED) as HT.
  rewrite H in HT.
  destruct HT as (_ & Hst & _ & _ & _ & _ & _ & _ & _ & _ & _ & Hend).
  split; [exact Hst | rewrite Hend; discriminate].
Qed.

(** The two outcomes of [runExecution] on a CREATED run with a live kill
    switch. *)
Lemma runExecution_live_cases (m : Z) (s : St) :
  state (run s) = CREATED -> killed (glob s) = false ->
  match runExecution m s with
  | Ok _ s' =>
      state (run s') = COMPLETED
      /\ budget (run s') = budget (run s)
      /\ startedAt (run s') <> None /\ endedAt (run s') <> None
      /\ exists new, length new = Z.to_nat m /\ numbered_from 0 new
         /\ events (glob s') = (events (glob s) ++ new)%list
         /\ steps (run s') = (steps (run s) ++ new)%list
         /\ tokens (spent (run s'))
            = (tokens (spent (run s)) + 50 * Z.of_nat (length new))%Z
         /\ usd (spent (run s')) = add_steps (usd (spent (run s))) (length new)
         /\ ((0 < length new)%nat -> within_budget (run s'))
  | Throw e s' =>
      (exists lt a c, e = ExecErr (BudgetExceededError lt a c))
      /\ state (run s') = RUNNING
      /\ budget (run s') = budget (run s)
      /\ startedAt (run s') <> None
      /\ ~ within_budget (run s')
      /\ exists new, (length new < Z.to_nat m)%nat /\ numbered_from 0 new
         /\ events (glob s') = (events (glob s) ++ new)%list
         /\ steps (run s') = (steps (run s) ++ new)%list
         /\ tokens (spent (run s'))
            = (tokens (spent (run s)) + 50 * Z.of_nat (S (length new)))%Z
         /\ usd (spent (run s'))
            = add_steps (usd (spent (run s))) (S (length new))
         /\ ((0 < length new)%nat ->
             (tokens (spent (run s)) + 50 * Z.of_nat (length new)
              <= maxTokens (budget (run s)))%Z
             /\ add_steps (usd (spent (run s))) (length new)
                <= maxUsd (budget (run s)))
  end.
Proof.
  intros Hc Hk.
  pose proof (transitionState_ok_frame s RUNNING) as HT.
  unfold runExecution. unfold bind at 1.
  destruct (transitionState RUNNING s) as [[] s1 | e s1];
    [| destruct HT as [HT _]; rewrite Hc in HT; discriminate HT].
  destruct HT as (_ & Hst1 & _ & Hb1 & Hsp1 & Hsteps1 & _ & Hev1 & Hk1 & _ & Hsa1 & _).
  assert (Hsa1' : startedAt (run s1) <> None)
    by (rewrite Hsa1; cbn; destruct (startedAt (run s)); discriminate).
  assert (Hk1' : killed (glob s1) = false) by congruence.
  pose proof (step_loop_alive (Z.to_nat m) 0 s1 Hk1') as HL.
  unfold bind at 1.
  destruct (step_loop (Z.to_nat m) 0 s1) as [[] s2 | e s2].
  - destruct HL as ((_ & _ & _ & F4 & F5 & F6 & _ & _) & new & Hl & Hnum & He & Hs & Ht & Hu & Hw).
    pose proof (transitionState_ok_frame s2 COMPLETED) as HT2.
    destruct (transitionState COMPLETED s2) as [[] s3 | e s3].
    + destruct HT2 as (_ & Hst3 & _ & Hb3 & Hsp3 & Hsteps3 & _ & Hev3 & _ & _ & Hsa3 & Hea3).
      cbn in Hsa3, Hea3.
      split; [exact Hst3 |].
      split; [congruence |].
      split; [congruence |].
      split; [rewrite Hea3; discriminate |].
      exists new. split; [exact Hl |]. split; [exact Hnum |].
      split; [congruence |]. split; [congruence |].
      split; [rewrite Hsp3, Ht, Hsp1, Hl; reflexivity |].
      split; [rewrite Hsp3, Hu, Hsp1, Hl; reflexivity |].
      intros Hpos. unfold within_budget. rewrite Hsp3, Hb3.
      apply Hw. rewrite <- Hl. exact Hpos.
    + destruct HT2 as [HT2 _]. rewrite F4, Hst1 in HT2. discriminate HT2.
  - destruct HL as ((_ & _ & _ & F4 & F5 & F6 & _ & _) & Herr & Hnw & new & Hl & Hnum & He & Hs & Ht & Hu & Hw).
    cbv beta iota.
    split; [exact Herr |].
    split; [congruence |]. split; [congruence |]. split; [congruence |].
    split; [exact Hnw |].
    exists new. split; [exact Hl |]. split; [exact Hnum |].
    split; [congruence |]. split; [congruence |].
    split; [rewrite Ht, Hsp1; reflexivity |].
    split; [rewrite Hu, Hsp1; reflexivity |].
    rewrite <- Hsp1, <- Hb1. exact Hw.
Qed.

(** On a CREATED run with a live kill switch, a normal return from
    [runExecution(run, maxSteps)] means that every step ran: the run is
    COMPLETED with both timestamps set, exactly [maxSteps] events numbered
    1..maxSteps were appended both to the global log and to [run.steps],
    [run.spent.tokens] grew by 50 per step, and (if a step ran) the final
    spend passed the budget guard. *)
Theorem runExecution_normal_return (m : Z) (s s' : St) :
  state (run s) = CREATED -> killed (glob s) = false ->
  runExecution m s = Ok tt s' ->
  state (run s') = COMPLETED
  /\ startedAt (run s') <> None /\ endedAt (run s') <> None
  /\ exists new, length new = Z.to_nat m /\ numbered_from 0 new
     /\ events (glob s') = (events (glob s) ++ new)%list
     /\ steps (run s') = (steps (run s) ++ new)%list
     /\ tokens (spent (run s'))
        = (tokens (spent (run s)) + 50 * Z.of_nat (length new))%Z
     /\ ((0 < length new)%nat -> within_budget (run s')).
Proof.
  intros Hc Hk Hrun.
  pose proof (runExecution_live_cases m s Hc Hk) as H. rewrite Hrun in H.
  destruct H as (Hst & _ & Hsa & Hea & new & Hl & Hnum & He & Hs & Htk & _ & Hw).
  split; [exact Hst |]. split; [exact Hsa |]. split; [exact Hea |].
  exists new.
  split; [exact Hl |]. split; [exact Hnum |]. split; [exact He |].
  split; [exact Hs |]. split; [exact Htk | exact Hw].
Qed.

(** On a CREATED run with a live kill switch, the only way [runExecution] can
    fail is the budget guard, and then only the failing step overran: the
    error is a [BudgetExceededError], the run is left RUNNING and over
    budget, the global log and [run.steps] received the same [j < maxSteps]
    events numbered 1..j, [run.spent.tokens] holds [j + 1] charges of 50
    tokens (the failing step is charged but not logged), and after the [j]
    logged steps the tokens were still within the token budget. *)
Theorem runExecution_budget_stop (m : Z) (s : St) (e : Thrown) (s' : St) :
  state (run s) = CREATED -> killed (glob s) = false ->
  runExecution m s = Throw e s' ->
  (exists lt a c, e = ExecErr (BudgetExceededError lt a c))
  /\ state (run s') = RUNNING
  /\ ~ within_budget (run s')
  /\ exists new, (length new < Z.to_nat m)%nat /\ numbered_from 0 new
     /\ events (glob s') = (events (glob s) ++ new)%list
     /\ steps (run s') = (steps (run s) ++ new)%list
     /\ tokens (spent (run s'))
        = (tokens (spent (run s)) + 50 * Z.of_nat (S (length new)))%Z
     /\ ((0 < length new)%nat ->
         (tokens (spent (run s)) + 50 * Z.of_nat (length new)
          <= maxTokens (budget (run s)))%Z).
Proof.
  intros Hc Hk Hrun.
  pose proof (runExecution_live_cases m s Hc Hk) as H. rewrite Hrun in H.
  destruct H as (Herr & Hst & _ & _ & Hnw & new & Hl & Hnum & He & Hs & Htk & _ & Hw).
  split; [exact Herr |]. split; [exact Hst |]. split; [exact Hnw |].
  exists new.
  split; [exact Hl |]. split; [exact Hnum |]. split; [exact He |].
  split; [exact Hs |]. split; [exact Htk |].
  intros Hpos. exact (proj1 (Hw Hpos)).
Qed.

(** With the kill switch triggered, [runExecution(run, maxSteps)] on a CREATED
    run with [maxSteps >= 1] moves the run to RUNNING (setting [startedAt])
    and then throws [KillSwitchTriggeredError] with the switch's reason
    before the first step: no cost is charged and no event is logged. *)
Theorem runExecution_killed_before_first_step (m : Z) (s : St) :
  state (run s) = CREATED -> killed (glob s) = true -> (0 < m)%Z ->
  exists s',
    runExecution m s
    = Throw (ExecErr (KillSwitchTriggeredError
                        (nullish (killReason (glob s)) "Manual termination"))) s'
    /\ state (run s') = RUNNING
    /\ startedAt (run s') <> None
    /\ events (glob s') = events (glob s)
    /\ steps (run s') = steps (run s)
    /\ spent (run s') = spent (run s).
Proof.
  intros Hc Hk Hm.
  pose proof (transitionState_ok_frame s RUNNING) as HT.
  unfold runExecution. unfold bind at 1.
  destruct (transitionState RUNNING s) as [[] s1 | e s1];
    [| destruct HT as [HT _]; rewrite Hc in HT; discriminate HT].
  destruct HT as (_ & Hst1 & _ & _ & Hsp1 & Hsteps1 & _ & Hev1 & Hk1 & Hkr1 & Hsa1 & _).
  unfold bind at 1.
  rewrite (step_loop_killed (Z.to_nat m) 0 s1) by congruence.
  destruct (Z.to_nat m) as [| k] eqn:Hz; [lia |].
  exists s1. rewrite Hkr1.
  split; [reflexivity |]. split; [exact Hst1 |].
  split; [rewrite Hsa1; cbn; destruct (startedAt (run s)); discriminate |].
  repeat split; assumption.
Qed.

(** What [runExecution] may do to the log, the run's copy of it, the spend,
    the budget and the kill switch, whatever the outcome. *)
Lemma runExecution_appends (m : Z) (s : St) :
  match runExecution m s with
  | Ok _ s' | Throw _ s' =>
      exists new, events (glob s') = (events (glob s) ++ new)%list
                  /\ steps (run s') = (steps (run s) ++ new)%list
                  /\ (tokens (spent (run s)) <= tokens (spent (run s')))%Z
                  /\ budget (run s') = budget (run s)
                  /\ killed (glob s') = killed (glob s)
                  /\ killReason (glob s') = killReason (glob s)
  end.
Proof.
  pose proof (transitionState_ok_frame s RUNNING) as HT.
  unfold runExecution. unfold bind at 1.
  destruct (transitionState RUNNING s) as [[] s1 | e s1].
  2:{ destruct HT as (_ & _ & ->). exists [].
      rewrite !app_nil_r. repeat split; lia. }
  destruct HT as (_ & _ & _ & Hb1 & Hsp1 & Hsteps1 & _ & Hev1 & Hk1 & Hkr1 & _ & _).
  assert (HL : match step_loop (Z.to_nat m) 0 s1 with
               | Ok _ s2 | Throw _ s2 =>
                   exists new, events (glob s2) = (events (glob s1) ++ new)%list
                               /\ steps (run s2) = (steps (run s1) ++ new)%list
                               /\ (tokens (spent (run s1)) <= tokens (spent (run s2)))%Z
                               /\ budget (run s2) = budget (run s1)
                               /\ killed (glob s2) = killed (glob s1)
                               /\ killReason (glob s2) = killReason (glob s1)
               end).
  { destruct (killed (glob s1)) eqn:Hk.
    - rewrite (step_loop_killed _ _ _ Hk).
      destruct (Z.to_nat m); exists []; rewrite !app_nil_r; repeat split; first [lia | congruence].
    - pose proof (step_loop_alive (Z.to_nat m) 0 s1 Hk) as HA.
      destruct (step_loop (Z.to_nat m) 0 s1) as [[] s2 | e s2].
      + destruct HA as ((F1 & F2 & _ & _ & F5 & _) & new & _ & _ & He & Hs & Ht & _).
        exists new. repeat split; try assumption; try congruence. lia.
      + destruct HA as ((F1 & F2 & _ & _ & F5 & _) & _ & _ & new & _ & _ & He & Hs & Ht & _).
        exists new. repeat split; try assumption; try congruence. lia. }
  unfold bind at 1.
  destruct (step_loop (Z.to_nat m) 0 s1) as [[] s2 | e s2].
  - pose proof (transitionState_ok_frame s2 COMPLETED) as HT2.
    destruct HL as (new & He & Hs & Ht & Hb & Hk & Hkr).
    destruct (transitionState COMPLETED s2) as [[] s3 | e s3].
    + destruct HT2 as (_ & _ & _ & Hb3 & Hsp3 & Hsteps3 & _ & Hev3 & Hk3 & Hkr3 & _).
      exists new. rewrite Hev3, Hsteps3, Hsp3, Hb3, He, Hs, Hev1, Hsteps1, Hb, Hb1.
      rewrite Hk3, Hkr3, Hk, Hkr, Hk1, Hkr1.
      repeat split. rewrite Hsp1 in Ht. exact Ht.
    + destruct HT2 as (_ & _ & ->).
      exists new. rewrite He, Hs, Hev1, Hsteps1, Hb, Hb1, Hk, Hkr, Hk1, Hkr1.
      repeat split. rewrite Hsp1 in Ht. exact Ht.
  - destruct HL as (new & He & Hs & Ht & Hb & Hk & Hkr). cbv beta iota.
    exists new. rewrite He, Hs, Hev1, Hsteps1, Hb, Hb1, Hk, Hkr, Hk1, Hkr1.
    repeat split. rewrite Hsp1 in Ht. exact Ht.
Qed.

(** Whatever the run and the kill switch, [runExecution] only appends to the
    global log, appends the same events to [run.steps] (the run's copy stays
    consistent with the log), never lowers [spent.tokens], never changes the
    budget and never touches the kill switch, whether it returns or throws. *)
Theorem runExecution_log_consistent (m : Z) (s : St) :
  match runExecution m s with
  | Ok _ s' | Throw _ s' =>
      exists new, events (glob s') = (events (glob s) ++ new)%list
                  /\ steps (run s') = (steps (run s) ++ new)%list
                  /\ (tokens (spent (run s)) <= tokens (spent (run s')))%Z
                  /\ budget (run s') = budget (run s)
                  /\ killed (glob s') = killed (glob s)
                  /\ killReason (glob s') = killReason (glob s)
  end.
Proof. exact (runExecution_appends m s). Qed.

Lemma runExecution_normal_return_witness :
  let s := mkSt demo_globals demo_run in
  let s' := outcome_state (runExecution 3 s) in
  (state (run s) = CREATED /\ killed (glob s) = false /\ runExecution 3 s = Ok tt s')
  /\ state (run s') = COMPLETED
  /\ startedAt (run s') <> None /\ endedAt (run s') <> None
  /\ exists new, length new = Z.to_nat 3 /\ numbered_from 0 new
     /\ events (glob s') = (events (glob s) ++ new)%list
     /\ steps (run s') = (steps (run s) ++ new)%list
     /\ tokens (spent (run s'))
        = (tokens (spent (run s)) + 50 * Z.of_nat (length new))%Z
     /\ ((0 < length new)%nat -> within_budget (run s')).
Proof.
  cbv zeta.
  assert (H1 : state (run (mkSt demo_globals demo_run)) = CREATED) by reflexivity.
  assert (H2 : killed (glob (mkSt demo_globals demo_run)) = false) by reflexivity.
  assert (H3 : runExecution 3 (mkSt demo_globals demo_run)
               = Ok tt (outcome_state (runExecution 3 (mkSt demo_globals demo_run))))
    by (vm_compute; reflexivity).
  split; [split; [exact H1 | split; [exact H2 | exact H3]] |].
  exact (runExecution_normal_return 3 (mkSt demo_globals demo_run) _ H1 H2 H3).
Defined.

Lemma runExecution_budget_stop_witness :
  let s := mkSt demo_globals demo_run in
  let e := ExecErr (BudgetExceededError LimitTokens 250 200) in
  let s' := outcome_state (runExecution 10 s) in
  (state (run s) = CREATED /\ killed (glob s) = false /\ runExecution 10 s = Throw e s')
  /\ (exists lt a c, e = ExecErr (BudgetExceededError lt a c))
  /\ state (run s') = RUNNING
  /\ ~ within_budget (run s')
  /\ exists new, (length new < Z.to_nat 10)%nat /\ numbered_from 0 new
     /\ events (glob s') = (events (glob s) ++ new)%list
     /\ steps (run s') = (steps (run s) ++ new)%list
     /\ tokens (spent (run s'))
        = (tokens (spent (run s)) + 50 * Z.of_nat (S (length new)))%Z
     /\ ((0 < length new)%nat ->
         (tokens (spent (run s)) + 50 * Z.of_nat (length new)
          <= maxTokens (budget (run s)))%Z).
Proof.
  cbv zeta.
  assert (H1 : state (run (mkSt demo_globals demo_run)) = CREATED) by reflexivity.
  assert (H2 : killed (glob (mkSt demo_globals demo_run)) = false) by reflexivity.
  assert (H3 : runExecution 10 (mkSt demo_globals demo_run)
               = Throw (ExecErr (BudgetExceededError LimitTokens 250 200))
                   (outcome_state (runExecution 10 (mkSt demo_globals demo_run))))
    by (vm_compute; reflexivity).
  split; [split; [exact H1 | split; [exact H2 | exact H3]] |].
  exact (runExecution_budget_stop 10 (mkSt demo_globals demo_run) _ _ H1 H2 H3).
Defined.

Lemma runExecution_killed_before_first_step_witness :
  (state (run demo_killed) = CREATED /\ killed (glob demo_killed) = true /\ (0 < 1)%Z)
  /\ exists s',
    runExecution 1 demo_killed
    = Throw (ExecErr (KillSwitchTriggeredError
                        (nullish (killReason (glob demo_killed)) "Manual termination"))) s'
    /\ state (run s') = RUNNING
    /\ startedAt (run s') <> None
    /\ events (glob s') = events (glob demo_killed)
    /\ steps (run s') = steps (run demo_killed)
    /\ spent (run s') = spent (run demo_killed).
Proof.
  assert (H1 : state (run demo_killed) = CREATED) by reflexivity.
  assert (H2 : killed (glob demo_killed) = true) by reflexivity.
  assert (H3 : (0 < 1)%Z) by lia.
  split; [split; [exact H1 | split; [exact H2 | exact H3]] |].
  exact (runExecution_killed_before_first_step 1 demo_killed H1 H2 H3).
Defined.

(** What [handleExecutionError] does to the run, in one place. *)
Lemma handleExecutionError_effect (number_toString : Q -> string) (error : Thrown)
  (s : St) :
  exists s',
    handleExecutionError number_toString error s = Ok tt s'
    /\ state (run s')
       = (if killed (glob s) then KILLED
          else match error with
               | ExecErr e => if String.eqb (code e) "KILL_SWITCH_TRIGGERED"
                              then KILLED else FAILED
               | _ => FAILED
               end)
    /\ terminationReason (run s')
       = Some (if killed (glob s)
               then nullish (killReason (glob s)) "Execution terminated"
               else thrown_message number_toString error)
    /\ endedAt (run s') = Some (clock (glob s) (ticks (glob s)))
    /\ events (glob s') = events (glob s)
    /\ steps (run s') = steps (run s)
    /\ spent (run s') = spent (run s)
    /\ budget (run s') = budget (run s)
    /\ startedAt (run s') = startedAt (run s).
Proof.
  destruct s as [[k kr ev clk t ids u] [rid st b sp stp sa ea tr]].
  destruct k; [| destruct error as [e | m | m]]; crunch_handler;
    eexists; (split; [reflexivity |]); cbn; repeat split.
Qed.

(** The demo's flow [runExecution(run).catch(handleExecutionError)] never
    lets an error escape: it always returns, with the run in COMPLETED,
    FAILED or KILLED and [endedAt] set; the log and [run.steps] only grew by
    the same events and the budget is unchanged.  If the kill switch was
    triggered beforehand, the run either completed (no step was attempted)
    or ended KILLED with the switch's reason as [terminationReason]. *)
Theorem runWithErrorHandling_settles (number_toString : Q -> string) (m : Z)
  (s : St) :
  exists s',
    runWithErrorHandling number_toString m s = Ok tt s'
    /\ (state (run s') = COMPLETED \/ state (run s') = FAILED
        \/ state (run s') = KILLED)
    /\ endedAt (run s') <> None
    /\ (exists new, events (glob s') = (events (glob s) ++ new)%list
                    /\ steps (run s') = (steps (run s) ++ new)%list)
    /\ budget (run s') = budget (run s)
    /\ (killed (glob s) = true ->
        state (run s') = COMPLETED
        \/ (state (run s') = KILLED
            /\ terminationReason (run s')
               = Some (nullish (killReason (glob s)) "Execution terminated"))).
Proof.
  pose proof (runExecution_appends m s) as HA.
  pose proof (runExecution_ok_completed m s) as HC.
  unfold runWithErrorHandling.
  destruct (runExecution m s) as [[] s1 | e s1];
    destruct HA as (new & He & Hs & _ & Hb & Hk & Hkr).
  - destruct (HC s1 eq_refl) as [Hc Hend].
    exists s1. split; [reflexivity |]. split; [left; exact Hc |].
    split; [exact Hend |]. split; [exists new; split; assumption |].
    split; [exact Hb |]. intros _; left; exact Hc.
  - destruct (handleExecutionError_effect number_toString e s1)
      as (s2 & Hh & Hst & Htr & Hend & Hev & Hsteps & _ & Hb2 & _).
    exists s2. split; [exact Hh |].
    split.
    { rewrite Hst. destruct (killed (glob s1)); [right; right; reflexivity |].
      destruct e as [e | x | x]; [| right; left; reflexivity | right; left; reflexivity].
      destruct (String.eqb (code e) "KILL_SWITCH_TRIGGERED");
        [right; right | right; left]; reflexivity. }
    split; [rewrite Hend; discriminate |].
    split; [exists new; rewrite Hev, Hsteps; split; assumption |].
    split; [congruence |].
    intros Hk0. right. rewrite Hk0 in Hk. rewrite Hst, Htr, Hk, Hkr.
    split; reflexivity.
Qed.

(** With the kill switch not triggered, the demo's flow on a CREATED run ends
    in exactly one of two ways: COMPLETED after logging all [maxSteps]
    events, or FAILED after logging fewer, with the spend over budget and a
    budget-exceeded message as [terminationReason].  In both cases the log
    and [run.steps] grew by the same events, numbered 1, 2, ... in order,
    and [endedAt] is set. *)
Theorem runWithErrorHandling_live (number_toString : Q -> string) (m : Z)
  (s : St) :
  state (run s) = CREATED -> killed (glob s) = false ->
  exists s',
    runWithErrorHandling number_toString m s = Ok tt s'
    /\ endedAt (run s') <> None
    /\ exists new, numbered_from 0 new
       /\ events (glob s') = (events (glob s) ++ new)%list
       /\ steps (run s') = (steps (run s) ++ new)%list
       /\ ((state (run s') = COMPLETED /\ length new = Z.to_nat m)
           \/ (state (run s') = FAILED /\ (length new < Z.to_nat m)%nat
               /\ ~ within_budget (run s')
               /\ exists lt a c,
                    terminationReason (run s')
                    = Some (error_message number_toString (BudgetExceededError lt a c)))).
Proof.
  intros Hc Hk.
  pose proof (runExecution_appends m s) as HA.
  pose proof (runExecution_live_cases m s Hc Hk) as HL.
  unfold runWithErrorHandling.
  destruct (runExecution m s) as [[] s1 | e s1].
  - destruct HL as (Hst & _ & _ & Hend & new & Hl & Hnum & He & Hs & _).
    exists s1. split; [reflexivity |]. split; [exact Hend |].
    exists new. split; [exact Hnum |]. split; [exact He |]. split; [exact Hs |].
    left; split; assumption.
  - destruct HA as (_ & _ & _ & _ & _ & Hk1 & _).
    destruct HL as ((lt & a & c & ->) & _ & _ & _ & Hnw & new & Hl & Hnum & He & Hs & _).
    destruct (handleExecutionError_effect number_toString
                (ExecErr (BudgetExceededError lt a c)) s1)
      as (s2 & Hh & Hst & Htr & Hend & Hev & Hsteps & Hsp & Hb & _).
    exists s2. split; [exact Hh |]. split; [rewrite Hend; discriminate |].
    exists new. split; [exact Hnum |].
    split; [rewrite Hev; exact He |]. split; [rewrite Hsteps; exact Hs |].
    right. rewrite Hk1, Hk in Hst, Htr.
    split; [rewrite Hst; reflexivity |]. split; [exact Hl |].
    split; [unfold within_budget in *; rewrite Hsp, Hb; exact Hnw |].
    exists lt, a, c. rewrite Htr. reflexivity.
Qed.

Lemma runWithErrorHandling_live_witness :
  (state (run (mkSt demo_globals demo_run)) = CREATED
   /\ killed (glob (mkSt demo_globals demo_run)) = false)
  /\ exists s',
    runWithErrorHandling (fun _ => "n") 10 (mkSt demo_globals demo_run) = Ok tt s'
    /\ endedAt (run s') <> None
    /\ exists new, numbered_from 0 new
       /\ events (glob s') = (events (glob (mkSt demo_globals demo_run)) ++ new)%list
       /\ steps (run s') = (steps (run (mkSt demo_globals demo_run)) ++ new)%list
       /\ ((state (run s') = COMPLETED /\ length new = Z.to_nat 10)
           \/ (state (run s') = FAILED /\ (length new < Z.to_nat 10)%nat
               /\ ~ within_budget (run s')
               /\ exists lt a c,
                    terminationReason (run s')
                    = Some (error_message (fun _ => "n") (BudgetExceededError lt a c)))).
Proof.
  assert (H1 : state (run (mkSt demo_globals demo_run)) = CREATED) by reflexivity.
  assert (H2 : killed (glob (mkSt demo_globals demo_run)) = false) by reflexivity.
  split; [split; [exact H1 | exact H2] |].
  exact (runWithErrorHandling_live (fun _ => "n") 10 (mkSt demo_globals demo_run) H1 H2).
Defined.

(** The terminal states are exactly those with no outgoing transition, so
    from COMPLETED, KILLED or FAILED every [transitionState] call throws
    [InvalidStateTransitionError] and leaves everything unchanged. *)
Theorem isTerminalState_no_exit (st : ExecutionState) :
  (isTerminalState st = true <-> validTransitions st = [])
  /\ (forall (s : St) (toState : ExecutionState),
        state (run s) = st -> isTerminalState st = true ->
        transitionState toState s
        = Throw (ExecErr (InvalidStateTransitionError st toState)) s).
Proof.
  split.
  - destruct st; cbn; split; intros H; (reflexivity || discriminate).
  - intros s toState Hst Ht. subst st.
    apply transitionState_refused.
    destruct (state (run s)); try discriminate Ht; reflexivity.
Qed.

(** After [killExecution(reason)], whatever the state before: the run and the
    event log are untouched, [isKilled()] is true, [getKillReason()] is the
    given reason, and both [assertAlive()] and [executeStep] throw
    [KillSwitchTriggeredError] with exactly that reason (the "Manual
    termination" fallback is not used) without changing anything: no cost is
    charged and no event is logged. *)
Theorem killExecution_blocks_steps (reason : string) (s : St) (n : Z)
  (type : StepEventType) (desc : string) (tok : Z) (dollars : Q) :
  exists s1,
    killExecution reason s = Ok tt s1
    /\ run s1 = run s /\ events (glob s1) = events (glob s)
    /\ isKilled s1 = Ok true s1
    /\ getKillReason s1 = Ok (Some reason) s1
    /\ assertAlive s1 = Throw (ExecErr (KillSwitchTriggeredError reason)) s1
    /\ executeStep n type desc tok dollars s1
       = Throw (ExecErr (KillSwitchTriggeredError reason)) s1.
Proof.
  exists (mkSt (set_killed true (Some reason) (glob s)) (run s)).
  repeat split.
Qed.

(** [resetKillSwitch()] clears the switch whatever its state: afterwards
    [isKilled()] is false, [getKillReason()] is null and [assertAlive()]
    passes, with the run and the log untouched; a [killExecution] just
    before it leaves no trace. *)
Theorem resetKillSwitch_clears (reason : string) (s : St) :
  exists s1,
    resetKillSwitch s = Ok tt s1
    /\ run s1 = run s /\ events (glob s1) = events (glob s)
    /\ isKilled s1 = Ok false s1
    /\ getKillReason s1 = Ok None s1
    /\ assertAlive s1 = Ok tt s1
    /\ (killExecution reason;; resetKillSwitch) s = Ok tt s1.
Proof.
  exists (mkSt (set_killed false None (glob s)) (run s)).
  repeat split.
Qed.

(** Successive [logEvent(e)] calls, one per element of [l], in order. *)
Definition log_all (l : list StepEvent) : M unit :=
  fold_right (fun e m => logEvent e;; m) (ret tt) l.

Lemma set_events_twice (v w : list StepEvent) (g : Globals) :
  set_events v (set_events w g) = set_events v g.
Proof. destruct g; reflexivity. Qed.

Lemma log_all_spec (l : list StepEvent) : forall s : St,
  log_all l s = Ok tt (mkSt (set_events (events (glob s) ++ l) (glob s)) (run s)).
Proof.
  induction l as [| e l IH]; intros [g r].
  - cbn. rewrite app_nil_r. destruct g; reflexivity.
  - cbn [log_all fold_right]. unfold bind at 1. cbn [logEvent modify_glob].
    fold (log_all l). rewrite IH. cbn.
    rewrite set_events_twice, <- app_assoc. reflexivity.
Qed.

(** The event log is an append-only list in call order: after logging the
    events of [l] one by one, [getEvents()] returns the previous events
    followed by [l] and [getEventCount()] grows by [length l]; the run and
    the kill switch are untouched.  After [clearEvents()] the same calls
    leave exactly [l] in the log. *)
Theorem logEvent_sequence (l : list StepEvent) (s : St) :
  (exists s1,
     log_all l s = Ok tt s1
     /\ getEvents s1 = Ok (events (glob s) ++ l)%list s1
     /\ getEventCount s1 = Ok (length (events (glob s)) + length l)%nat s1
     /\ run s1 = run s
     /\ killed (glob s1) = killed (glob s)
     /\ killReason (glob s1) = killReason (glob s))
  /\ (exists s2,
        (clearEvents;; log_all l) s = Ok tt s2
        /\ getEvents s2 = Ok l s2
        /\ getEventCount s2 = Ok (length l) s2).
Proof.
  split.
  - eexists. split; [apply log_all_spec |].
    cbn. rewrite length_app. repeat split.
  - unfold bind at 1. cbn [clearEvents modify_glob].
    rewrite log_all_spec. eexists. split; [reflexivity |]. cbn. split; reflexivity.
Qed.

(** Counting aids for [summarizeEvents]. *)
Definition count_name (k : string) (l : list StepEvent) : nat :=
  length (filter (fun e => String.eqb k (StepEventType_name (ev_type e))) l).

Definition sum_tokens (l : list StepEvent) : Z :=
  fold_right (fun e acc => (ev_tokens e + acc)%Z) 0%Z l.

Definition byType_total (m : list (string * Z)) : Z :=
  fold_right (fun kv acc => (snd kv + acc)%Z) 0%Z m.

(** [byType[k]] after [n] more occurrences of [k]. *)
Definition opt_plus (o : option Z) (n : nat) : option Z :=
  match n with
  | O => o
  | S _ => Some (match o with Some v => v | None => 0 end + Z.of_nat n)%Z
  end.

Lemma byType_bump_lookup (k k' : string) (m : list (string * Z)) :
  byType_lookup k (byType_bump k' m)
  = if String.eqb k k'
    then Some (match byType_lookup k m with Some v => v | None => 0 end + 1)%Z
    else byType_lookup k m.
Proof.
  induction m as [| [k'' v] t IH]; cbn.
  - destruct (String.eqb k k'); reflexivity.
  - destruct (String.eqb_spec k' k'') as [-> | Hne]; cbn.
    + destruct (String.eqb k k''); reflexivity.
    + rewrite IH.
      destruct (String.eqb_spec k k''); destruct (String.eqb_spec k k');
        subst; try reflexivity; congruence.
Qed.

Lemma byType_bump_total (k : string) (m : list (string * Z)) :
  byType_total (byType_bump k m) = (byType_total m + 1)%Z.
Proof.
  induction m as [| [k' v] t IH]; cbn; [reflexivity |].
  destruct (String.eqb k k'); cbn; [lia |].
  unfold byType_total in IH. rewrite IH. lia.
Qed.

Lemma byType_bump_keys (k x : string) (m : list (string * Z)) :
  In x (map fst (byType_bump k m)) -> x = k \/ In x (map fst m).
Proof.
  induction m as [| [k' v] t IH]; cbn.
  - intros [H | []]. left; symmetry; exact H.
  - destruct (String.eqb k k'); cbn; [tauto |].
    intros [H | H]; [tauto |]. destruct (IH H); tauto.
Qed.

Lemma byType_bump_nodup (k : string) (m : list (string * Z)) :
  NoDup (map fst m) -> NoDup (map fst (byType_bump k m)).
Proof.
  induction m as [| [k' v] t IH]; cbn; intros Hnd.
  - constructor; [intros [] | constructor].
  - inversion Hnd as [| ? ? Hnin Hnd']; subst.
    destruct (String.eqb_spec k k') as [-> | Hne]; cbn.
    + constructor; assumption.
    + constructor; [| exact (IH Hnd')].
      intros Hin. destruct (byType_bump_keys k k' t Hin); [congruence | contradiction].
Qed.

Lemma summarize_fold (l : list StepEvent) :
  forall (m : list (string * Z)) (c : Q) (t : Z),
  let p := fold_left summarize_step l (m, c, t) in
  (forall k, byType_lookup k (fst (fst p)) = opt_plus (byType_lookup k m) (count_name k l))
  /\ snd p = (t + sum_tokens l)%Z
  /\ byType_total (fst (fst p)) = (byType_total m + Z.of_nat (length l))%Z
  /\ (NoDup (map fst m) -> NoDup (map fst (fst (fst p)))).
Proof.
  induction l as [| e l IH]; intros m c t; cbn.
  - unfold sum_tokens, byType_total; cbn [fold_right].
    split; [reflexivity |]. split; [lia |]. split; [lia | tauto].
  - destruct (IH (byType_bump (StepEventType_name (ev_type e)) m)
                 (c + cost e) (t + ev_tokens e)%Z) as (H1 & H3 & H4 & H5).
    split; [| split; [| split]].
    + intros k. rewrite H1, byType_bump_lookup. unfold count_name; cbn.
      destruct (String.eqb k (StepEventType_name (ev_type e))); cbn;
        [| reflexivity].
      fold (count_name k l).
      destruct (count_name k l) as [| n]; cbn [opt_plus]; [reflexivity |].
      f_equal. lia.
    + rewrite H3. unfold sum_tokens; cbn. lia.
    + rewrite H4, byType_bump_total. lia.
    + intros Hnd. apply H5. apply byType_bump_nodup. exact Hnd.
Qed.

(** [summarizeEvents(events)] reports the number of events and the sum of
    their [tokens] fields. *)
Theorem summarizeEvents_totals (evs : list StepEvent) :
  es_count (summarizeEvents evs) = Z.of_nat (length evs)
  /\ es_totalTokens (summarizeEvents evs) = sum_tokens evs.
Proof.
  destruct (summarize_fold evs [] 0 0%Z) as (_ & H3 & _).
  unfold summarizeEvents.
  destruct (fold_left summarize_step evs ([], 0, 0%Z)) as [[m c] t].
  cbn in *. split; [reflexivity | exact H3].
Qed.

(** The [byType] table of [summarizeEvents(events)] has, for every key, the
    number of events of that type, and no entry for a type that does not
    occur (in particular it is empty for no events); its keys are distinct and
    its counts add up to the number of events. *)
Theorem summarizeEvents_byType (evs : list StepEvent) :
  (forall k : string,
     byType_lookup k (es_byType (summarizeEvents evs))
     = match count_name k evs with
       | O => None
       | n => Some (Z.of_nat n)
       end)
  /\ NoDup (map fst (es_byType (summarizeEvents evs)))
  /\ byType_total (es_byType (summarizeEvents evs)) = es_count (summarizeEvents evs).
Proof.
  destruct (summarize_fold evs [] 0 0%Z) as (H1 & _ & H4 & H5).
  unfold summarizeEvents.
  destruct (fold_left summarize_step evs ([], 0, 0%Z)) as [[m c] t].
  cbn in *. split; [| split].
  - intros k. rewrite H1. destruct (count_name k evs); reflexivity.
  - apply H5. constructor.
  - exact H4.
Qed.

(** The summary of the events a run logs: all LLM_CALL, 50 tokens and 0.1
    dollars each. *)
Lemma summarize_numbered (l : list StepEvent) : forall i : Z,
  numbered_from i l ->
  es_count (summarizeEvents l) = Z.of_nat (length l)
  /\ es_totalTokens (summarizeEvents l) = (50 * Z.of_nat (length l))%Z
  /\ (forall k, byType_lookup k (es_byType (summarizeEvents l))
                = if String.eqb k "LLM_CALL" && (0 <? Z.of_nat (length l))%Z
                  then Some (Z.of_nat (length l)) else None).
Proof.
  assert (Hsum : forall i, numbered_from i l ->
            sum_tokens l = (50 * Z.of_nat (length l))%Z
            /\ forall k, count_name k l
                         = if String.eqb k "LLM_CALL" then length l else O).
  { induction l as [| e t IH]; intros i Hn.
    - unfold sum_tokens; cbn. split; [reflexivity |].
      intros k. destruct (String.eqb k "LLM_CALL"); reflexivity.
    - destruct Hn as (_ & _ & Hty & Htok & _ & Hn).
      destruct (IH (i + 1)%Z Hn) as (H1 & H3).
      split.
      + unfold sum_tokens in *; cbn. rewrite H1, Htok. lia.
      + intros k. specialize (H3 k). unfold count_name in *. cbn [filter].
        rewrite Hty. cbn [StepEventType_name].
        destruct (String.eqb k "LLM_CALL") eqn:E; cbn [length]; rewrite H3, ?E;
          reflexivity. }
  intros i Hn. destruct (Hsum i Hn) as (S1 & S3).
  destruct (summarize_fold l [] 0 0%Z) as (H1 & H3 & _).
  unfold summarizeEvents.
  destruct (fold_left summarize_step l ([], 0, 0%Z)) as [[m c] t].
  cbn in *. split; [reflexivity |]. split; [rewrite H3, S1; reflexivity |].
  intros k. rewrite H1, S3.
  destruct (String.eqb k "LLM_CALL"); cbn; [| reflexivity].
  destruct (length l) as [| n]; reflexivity.
Qed.

(** On a CREATED run with a live kill switch, an empty log and no steps,
    the replay summary of the log after [runExecution] agrees with the run:
    its count is the number of steps, and all events are LLM_CALL
    ([byType] has that single key when there are events).  After a normal
    return [run.spent.tokens] is exactly the summarized tokens; after a
    budget stop it exceeds them by one step's 50 tokens, the charge of the
    step that failed the guard and was never logged. *)
Theorem runExecution_replay_summary (m : Z) (s : St) :
  state (run s) = CREATED -> killed (glob s) = false ->
  events (glob s) = [] -> steps (run s) = [] ->
  match runExecution m s with
  | Ok _ s' =>
      let sm := summarizeEvents (events (glob s')) in
      es_count sm = Z.of_nat (length (steps (run s')))
      /\ tokens (spent (run s')) = (tokens (spent (run s)) + es_totalTokens sm)%Z
      /\ (forall k, byType_lookup k (es_byType sm)
                    = if String.eqb k "LLM_CALL" && (0 <? es_count sm)%Z
                      then Some (es_count sm) else None)
  | Throw _ s' =>
      let sm := summarizeEvents (events (glob s')) in
      es_count sm = Z.of_nat (length (steps (run s')))
      /\ tokens (spent (run s')) = (tokens (spent (run s)) + es_totalTokens sm + 50)%Z
      /\ (forall k, byType_lookup k (es_byType sm)
                    = if String.eqb k "LLM_CALL" && (0 <? es_count sm)%Z
                      then Some (es_count sm) else None)
  end.
Proof.
  intros Hc Hk He0 Hs0.
  pose proof (runExecution_live_cases m s Hc Hk) as HL.
  destruct (runExecution m s) as [[] s' | e s'].
  - destruct HL as (_ & _ & _ & _ & new & Hl & Hnum & He & Hs & Htk & _).
    rewrite He0 in He. rewrite Hs0 in Hs. cbn [app] in He, Hs.
    cbv zeta. rewrite He, Hs.
    destruct (summarize_numbered new 0 Hnum) as (S1 & S2 & S4).
    rewrite S1. split; [reflexivity |].
    split; [rewrite Htk, S2; reflexivity |].
    exact S4.
  - destruct HL as (_ & _ & _ & _ & _ & new & Hl & Hnum & He & Hs & Htk & _).
    rewrite He0 in He. rewrite Hs0 in Hs. cbn [app] in He, Hs.
    cbv zeta. rewrite He, Hs.
    destruct (summarize_numbered new 0 Hnum) as (S1 & S2 & S4).
    rewrite S1. split; [reflexivity |].
    split; [rewrite Htk, S2, Nat2Z.inj_succ; lia |].
    exact S4.
Qed.

Lemma runExecution_replay_summary_witness :
  (state (run (mkSt demo_globals demo_run)) = CREATED
   /\ killed (glob (mkSt demo_globals demo_run)) = false
   /\ events (glob (mkSt demo_globals demo_run)) = []
   /\ steps (run (mkSt demo_globals demo_run)) = [])
  /\ match runExecution 10 (mkSt demo_globals demo_run) with
     | Ok _ s' =>
         let sm := summarizeEvents (events (glob s')) in
         es_count sm = Z.of_nat (length (steps (run s')))
         /\ tokens (spent (run s'))
            = (tokens (spent (run (mkSt demo_globals demo_run))) + es_totalTokens sm)%Z
         /\ (forall k, byType_lookup k (es_byType sm)
                       = if String.eqb k "LLM_CALL" && (0 <? es_count sm)%Z
                         then Some (es_count sm) else None)
     | Throw _ s' =>
         let sm := summarizeEvents (events (glob s')) in
         es_count sm = Z.of_nat (length (steps (run s')))
         /\ tokens (spent (run s'))
            = (tokens (spent (run (mkSt demo_globals demo_run))) + es_totalTokens sm + 50)%Z
         /\ (forall k, byType_lookup k (es_byType sm)
                       = if String.eqb k "LLM_CALL" && (0 <? es_count sm)%Z
                         then Some (es_count sm) else None)
     end.
Proof.
  assert (H1 : state (run (mkSt demo_globals demo_run)) = CREATED) by reflexivity.
  assert (H2 : killed (glob (mkSt demo_globals demo_run)) = false) by reflexivity.
  assert (H3 : events (glob (mkSt demo_globals demo_run)) = []) by reflexivity.
  assert (H4 : steps (run (mkSt demo_globals demo_run)) = []) by reflexivity.
  split; [split; [exact H1 | split; [exact H2 | split; [exact H3 | exact H4]]] |].
  exact (runExecution_replay_summary 10 (mkSt demo_globals demo_run) H1 H2 H3 H4).
Defined.

(** ** The clock only moves forward *)

(** [Date.now()] is read from the same clock, at a position that never goes
    back. *)
Definition clock_mono (s s' : St) : Prop :=
  clock (glob s') = clock (glob s) /\ (ticks (glob s) <= ticks (glob s'))%nat.

Definition keeps_clock {A : Type} (m : M A) : Prop :=
  forall s, match m s with Ok _ s' | Throw _ s' => clock_mono s s' end.

Lemma clock_mono_refl (s : St) : clock_mono s s.
Proof. split; reflexivity. Qed.

Lemma clock_mono_trans (s1 s2 s3 : St) :
  clock_mono s1 s2 -> clock_mono s2 s3 -> clock_mono s1 s3.
Proof. unfold clock_mono; intros [H1 H2] [H3 H4]; split; [congruence | lia]. Qed.

Lemma keeps_clock_bind {A B : Type} (m : M A) (k : A -> M B) :
  keeps_clock m -> (forall a, keeps_clock (k a)) -> keeps_clock (bind m k).
Proof.
  intros Hm Hk s. unfold bind. specialize (Hm s).
  destruct (m s) as [a s1 | e s1]; [| exact Hm].
  specialize (Hk a s1). destruct (k a s1); eapply clock_mono_trans; eassumption.
Qed.

Lemma keeps_clock_if {A : Type} (b : bool) (m1 m2 : M A) :
  keeps_clock m1 -> keeps_clock m2 -> keeps_clock (if b then m1 else m2).
Proof. destruct b; auto. Qed.

Lemma keeps_clock_ret {A : Type} (a : A) : keeps_clock (ret a).
Proof. intros s. apply clock_mono_refl. Qed.

Lemma keeps_clock_throw {A : Type} (e : Thrown) : keeps_clock (@throw A e).
Proof. intros s. apply clock_mono_refl. Qed.

Lemma keeps_clock_get_run : keeps_clock get_run.
Proof. intros s. apply clock_mono_refl. Qed.

Lemma keeps_clock_get_glob : keeps_clock get_glob.
Proof. intros s. apply clock_mono_refl. Qed.

Lemma keeps_clock_modify_run (f : ExecutionRun -> ExecutionRun) :
  keeps_clock (modify_run f).
Proof. intros s. split; reflexivity. Qed.

Lemma keeps_clock_date_now : keeps_clock date_now.
Proof. intros s. split; cbn; [reflexivity | lia]. Qed.

Lemma keeps_clock_randomUUID : keeps_clock randomUUID.
Proof. intros s. split; reflexivity. Qed.

Lemma keeps_clock_logEvent (e : StepEvent) : keeps_clock (logEvent e).
Proof. intros s. split; reflexivity. Qed.

Create HintDb clockdb.
#[export] Hint Resolve keeps_clock_ret keeps_clock_throw keeps_clock_get_run
  keeps_clock_get_glob keeps_clock_modify_run keeps_clock_date_now
  keeps_clock_randomUUID keeps_clock_logEvent : clockdb.

Ltac keeps_clock_tac :=
  repeat match goal with
         | |- forall _, _ => intro
         | |- keeps_clock (bind _ _) => apply keeps_clock_bind
         | |- keeps_clock (if _ then _ else _) => apply keeps_clock_if
         | |- keeps_clock (let _ := _ in _) => cbv zeta
         | |- keeps_clock (match ?x with _ => _ end) => destruct x
         | |- keeps_clock _ => solve [auto with clockdb]
         end.

Lemma keeps_clock_transitionState (toState : ExecutionState) :
  keeps_clock (transitionState toState).
Proof. unfold transitionState. keeps_clock_tac. Qed.

Lemma keeps_clock_executeStep (n : Z) (type : StepEventType) (desc : string)
  (tok : Z) (dollars : Q) : keeps_clock (executeStep n type desc tok dollars).
Proof.
  unfold executeStep, assertAlive, addCost, enforceLimits. keeps_clock_tac.
Qed.

Lemma keeps_clock_step_loop (k : nat) : forall i, keeps_clock (step_loop k i).
Proof.
  induction k as [| k IH]; intros i; cbn [step_loop].
  - apply keeps_clock_ret.
  - apply keeps_clock_bind; [apply keeps_clock_executeStep | intros _; apply IH].
Qed.

(** [run.startedAt] is not touched by the steps. *)
Lemma step_loop_startedAt (k : nat) (i : Z) (s : St) :
  match step_loop k i s with
  | Ok _ s' | Throw _ s' => startedAt (run s') = startedAt (run s)
  end.
Proof.
  destruct (killed (glob s)) eqn:Hk.
  - rewrite (step_loop_killed k i s Hk). destruct k; reflexivity.
  - pose proof (step_loop_alive k i s Hk) as HA.
    destruct (step_loop k i s) as [[] s' | e s'].
    + destruct HA as ((_ & _ & _ & _ & _ & F6 & _) & _). exact F6.
    + destruct HA as ((_ & _ & _ & _ & _ & F6 & _) & _). exact F6.
Qed.

(** With a clock that never goes backwards, the demo's flow on a fresh
    CREATED run (no start time yet) always ends with both timestamps set,
    [startedAt] being the time of the move to RUNNING, and the summary's
    [durationMs] is never negative, whether the run completed, hit its
    budget or met a triggered kill switch. *)
Theorem runWithErrorHandling_duration_nonneg (number_toString : Q -> string)
  (m : Z) (s : St) :
  state (run s) = CREATED -> startedAt (run s) = None ->
  (forall a b : nat, (a <= b)%nat -> (clock (glob s) a <= clock (glob s) b)%Z) ->
  exists s',
    runWithErrorHandling number_toString m s = Ok tt s'
    /\ startedAt (run s') = Some (clock (glob s) (ticks (glob s)))
    /\ endedAt (run s') <> None
    /\ forall now : Z, (0 <= durationMs (generateSummary now (run s')))%Z.
Proof.
  intros Hc Hsa Hmono.
  pose proof (transitionState_ok_frame s RUNNING) as HT.
  pose proof (keeps_clock_transitionState RUNNING s) as HK1.
  (* the run's end time, read from the same clock no earlier than its start *)
  assert (Hend : forall s2 s4,
             clock_mono s s2 ->
             startedAt (run s4) = Some (clock (glob s) (ticks (glob s))) ->
             endedAt (run s4) = Some (clock (glob s2) (ticks (glob s2))) ->
             startedAt (run s4) = Some (clock (glob s) (ticks (glob s)))
             /\ endedAt (run s4) <> None
             /\ forall now : Z, (0 <= durationMs (generateSummary now (run s4)))%Z).
  { intros s2 s4 [Hcl Htk] Hs4 He4.
    split; [exact Hs4 |]. split; [rewrite He4; discriminate |].
    intros now. unfold generateSummary. rewrite Hs4, He4. cbn [durationMs nullish].
    rewrite Hcl. specialize (Hmono _ _ Htk). lia. }
  unfold runWithErrorHandling, runExecution. unfold bind at 1.
  destruct (transitionState RUNNING s) as [[] s1 | e s1];
    [| destruct HT as [HT _]; rewrite Hc in HT; discriminate HT].
  destruct HT as (_ & _ & _ & _ & _ & _ & _ & _ & _ & _ & Hsa1 & _).
  rewrite Hsa in Hsa1. cbn in Hsa1.
  pose proof (keeps_clock_step_loop (Z.to_nat m) 0 s1) as HK2.
  pose proof (step_loop_startedAt (Z.to_nat m) 0 s1) as HS2.
  unfold bind at 1.
  destruct (step_loop (Z.to_nat m) 0 s1) as [[] s2 | e s2].
  - pose proof (transitionState_ok_frame s2 COMPLETED) as HT2.
    destruct (transitionState COMPLETED s2) as [[] s3 | e s3].
    + destruct HT2 as (_ & _ & _ & _ & _ & _ & _ & _ & _ & _ & Hsa3 & Hea3).
      cbn in Hsa3, Hea3.
      exists s3. split; [reflexivity |].
      apply (Hend s2 s3); [eapply clock_mono_trans; eassumption | congruence | exact Hea3].
    + destruct HT2 as (_ & _ & ->).
      destruct (handleExecutionError_effect number_toString e s2)
        as (s4 & Hh & _ & _ & He4 & _ & _ & _ & _ & Hs4).
      exists s4. split; [exact Hh |].
      apply (Hend s2 s4); [eapply clock_mono_trans; eassumption | congruence | exact He4].
  - destruct (handleExecutionError_effect number_toString e s2)
      as (s4 & Hh & _ & _ & He4 & _ & _ & _ & _ & Hs4).
    exists s4. split; [exact Hh |].
    apply (Hend s2 s4); [eapply clock_mono_trans; eassumption | congruence | exact He4].
Qed.

Lemma runWithErrorHandling_duration_nonneg_witness :
  (state (run (mkSt demo_globals demo_run)) = CREATED
   /\ startedAt (run (mkSt demo_globals demo_run)) = None
   /\ (forall a b : nat, (a <= b)%nat ->
        (clock (glob (mkSt demo_globals demo_run)) a
         <= clock (glob (mkSt demo_globals demo_run)) b)%Z))
  /\ exists s',
    runWithErrorHandling (fun _ => "n") 10 (mkSt demo_globals demo_run) = Ok tt s'
    /\ startedAt (run s')
       = Some (clock (glob (mkSt demo_globals demo_run))
                     (ticks (glob (mkSt demo_globals demo_run))))
    /\ endedAt (run s') <> None
    /\ forall now : Z, (0 <= durationMs (generateSummary now (run s')))%Z.
Proof.
  assert (H1 : state (run (mkSt demo_globals demo_run)) = CREATED) by reflexivity.
  assert (H2 : startedAt (run (mkSt demo_globals demo_run)) = None) by reflexivity.
  assert (H3 : forall a b : nat, (a <= b)%nat ->
                 (clock (glob (mkSt demo_globals demo_run)) a
                  <= clock (glob (mkSt demo_globals demo_run)) b)%Z)
    by (intros a b Hab; cbn; lia).
  split; [split; [exact H1 | split; [exact H2 | exact H3]] |].
  exact (runWithErrorHandling_duration_nonneg (fun _ => "n") 10
           (mkSt demo_globals demo_run) H1 H2 H3).
Defined.

(** ** The demo program ([src/unnamed/part_001]) *)

(** The demo up to its console output: it clears the log, resets the kill
    switch, creates the run ["run_" + Date.now()] with a budget of 400 tokens
    and 0.5 dollars, runs it with the default [maxSteps = 10] and the error
    handler, and in [.finally] builds the summary and replays [getEvents()];
    the result is that summary and the replayed events. *)
Definition demo_main (number_toString : Q -> string)
  : M (ExecutionSummary * list StepEvent) :=
  clearEvents;;
  resetKillSwitch;;
  t <- date_now;;
  modify_run (fun _ => createExecutionRun ("run_" ++ int_to_string t)
                         (mkBudget 400 (1 # 2)));;
  runWithErrorHandling number_toString 10;;
  now <- date_now;;
  r <- get_run;;
  evs <- getEvents;;
  ret (generateSummary now r, evs).

(** Whatever the state left by earlier code (log, kill switch, clock, ids),
    the demo always ends the same way: the cost guard stops the 6th step
    (0.6 dollars against a limit of 0.5; the 300 tokens are within the 400
    allowed), so the summary reports FAILED, 5 steps executed, 300 tokens and
    0.6 dollars spent (the failed step's charge included) and the cost
    message as termination reason, while the replay shows the 5 logged
    events, numbered 1 to 5. *)
Theorem demo_main_outcome (number_toString : Q -> string) (s : St) :
  exists summary evs s',
    demo_main number_toString s = Ok (summary, evs) s'
    /\ runId summary = "run_" ++ int_to_string (clock (glob s) (ticks (glob s)))
    /\ finalState summary = FAILED
    /\ stepsExecuted summary = 5%nat
    /\ totalTokens summary = 300%Z
    /\ totalCost summary == 6 # 10
    /\ (exists u, u == 6 # 10
        /\ sum_terminationReason summary
           = Some (error_message number_toString (BudgetExceededError LimitUsd u (1 # 2))))
    /\ length evs = 5%nat
    /\ numbered_from 0 evs
    /\ evs = steps (run s').
Proof.
  destruct s as [[k kr ev clk t ids u] r].
  do 3 eexists. split; [vm_compute; reflexivity |].
  vm_compute. split; [reflexivity |].
  split; [reflexivity |]. split; [reflexivity |]. split; [reflexivity |].
  split; [reflexivity |].
  split; [eexists; split; [| reflexivity]; reflexivity |].
  split; [reflexivity |].
  split; [repeat split |].
  reflexivity.
Qed.
